(** * cape_audit: the report verifiers and the objective tree

    A shallow embedding of [cape_audit/verifiers.py] and of the objective
    evaluator of [cape_audit/cape_audit.py].

    - Python values of a parsed [report.json] are the inductive [value].
    - A Python call that can raise returns [result A]: [Ok a] for a normal
      return, [Raise e] for an exception [e].
    - The [re] module and the file system are interfaces ([Regex],
      [FileSystem]); every statement holds for every implementation. *)

From Stdlib Require Import List String Ascii ZArith Bool Arith Lia.
From Stdlib Require Import DecimalString.
Import ListNotations.
Open Scope string_scope.
Set Warnings "-register-all".

(** ** Exceptions and results *)

(** The exception classes the modelled code raises or lets through; all of
    them derive from [Exception]. *)
Inductive exn_class :=
| TypeError | ValueError | AttributeError | StopIteration | ReError
| OSError | PlainException.

(** An exception object: its class and [str(e)]. *)
Record exn := Exn { exn_kind : exn_class; exn_str : string }.

Inductive result (A : Type) :=
| Ok (a : A)
| Raise (e : exn).
Arguments Ok {A} a.
Arguments Raise {A} e.

Definition bind {A B} (r : result A) (k : A -> result B) : result B :=
  match r with
  | Ok a => k a
  | Raise e => Raise e
  end.

Notation "x <- r ;; k" := (bind r (fun x => k))
  (at level 61, r at next level, right associativity).

(** [try: body except Exception as e: handler e]. *)
Definition try_except {A} (body : result A) (handler : exn -> result A)
  : result A :=
  match body with
  | Ok a => Ok a
  | Raise e => handler e
  end.

(** ** Strings: [str.split('/')] and ['/'.join] *)

Definition slash : ascii := "/"%char.

(** [s.split('/')]: never empty; the empty string gives one empty segment. *)
Fixpoint split_slash (s : string) : list string :=
  match s with
  | EmptyString => [EmptyString]
  | String c s' =>
      if Ascii.eqb c slash then EmptyString :: split_slash s'
      else match split_slash s' with
           | [] => [String c EmptyString]
           | seg :: segs => String c seg :: segs
           end
  end.

(** ['/'.join(keys)]. *)
Definition join_slash (keys : list string) : string := String.concat "/" keys.

Fixpoint has_slash (s : string) : bool :=
  match s with
  | EmptyString => false
  | String c s' => Ascii.eqb c slash || has_slash s'
  end.

(** [needle in haystack] for strings. *)
Fixpoint str_contains (needle haystack : string) : bool :=
  String.prefix needle haystack ||
  match haystack with
  | EmptyString => false
  | String _ h' => str_contains needle h'
  end.

(** ** Python values *)

(** A float is used by the verifiers only through [bool(x)] and [str(x)];
    it is carried as these two observations. *)
Record pyfloat := PyFloat { float_nonzero : bool; float_text : string }.

(** What [json.loads] builds, and what a test author writes as criteria.
    A [dict] keeps its insertion order (the order [str] and [items()]
    show), hence an association list; keys are strings. *)
Inductive value :=
| VNone
| VBool (b : bool)
| VInt (z : Z)
| VFloat (f : pyfloat)
| VStr (s : string)
| VList (items : list value)
| VDict (entries : list (string * value)).

Section value_induction.
Variable P : value -> Prop.
Hypothesis HNone : P VNone.
Hypothesis HBool : forall b, P (VBool b).
Hypothesis HInt : forall z, P (VInt z).
Hypothesis HFloat : forall f, P (VFloat f).
Hypothesis HStr : forall s, P (VStr s).
Hypothesis HList : forall items, Forall P items -> P (VList items).
Hypothesis HDict :
  forall entries, Forall (fun kv => P (snd kv)) entries -> P (VDict entries).

Fixpoint value_nested_ind (v : value) : P v :=
  match v with
  | VNone => HNone
  | VBool b => HBool b
  | VInt z => HInt z
  | VFloat f => HFloat f
  | VStr s => HStr s
  | VList items =>
      HList items
        ((fix go (l : list value) : Forall P l :=
            match l with
            | [] => Forall_nil P
            | x :: l' => Forall_cons x (value_nested_ind x) (go l')
            end) items)
  | VDict entries =>
      HDict entries
        ((fix go (l : list (string * value))
            : Forall (fun kv => P (snd kv)) l :=
            match l with
            | [] => Forall_nil _
            | (k, x) :: l' =>
                Forall_cons (k, x) (value_nested_ind x) (go l')
            end) entries)
  end.
End value_induction.

Definition is_list (v : value) : bool :=
  match v with VList _ => true | _ => false end.

(** [type(v).__name__]. *)
Definition type_name (v : value) : string :=
  match v with
  | VNone => "NoneType"
  | VBool _ => "bool"
  | VInt _ => "int"
  | VFloat _ => "float"
  | VStr _ => "str"
  | VList _ => "list"
  | VDict _ => "dict"
  end.

(** [bool(v)], the test of [if v:]. *)
Definition truthy (v : value) : bool :=
  match v with
  | VNone => false
  | VBool b => b
  | VInt z => negb (Z.eqb z 0)
  | VFloat f => float_nonzero f
  | VStr s => negb (String.eqb s "")
  | VList items => match items with [] => false | _ => true end
  | VDict entries => match entries with [] => false | _ => true end
  end.

(** [len(v)]; raises [TypeError] on a value with no length. Text is a
    string of bytes: the length of a string is exact for ASCII text. *)
Definition py_len (v : value) : result nat :=
  match v with
  | VStr s => Ok (String.length s)
  | VList items => Ok (List.length items)
  | VDict entries => Ok (List.length entries)
  | other =>
      Raise (Exn TypeError
               ("object of type '" ++ type_name other ++ "' has no len()"))
  end.

(** [d.get(key)]: [None] when the key is missing. *)
Fixpoint dict_get (entries : list (string * value)) (key : string) : value :=
  match entries with
  | [] => VNone
  | (k, v) :: rest => if String.eqb k key then v else dict_get rest key
  end.

(** *** [repr] and [str] *)

Definition dquote : ascii := ascii_of_nat 34.
Definition squote : ascii := "'"%char.
Definition backslash : ascii := ascii_of_nat 92.

Fixpoint has_char (c : ascii) (s : string) : bool :=
  match s with
  | EmptyString => false
  | String d s' => Ascii.eqb c d || has_char c s'
  end.

Definition hex_digit (n : nat) : ascii :=
  if Nat.ltb n 10 then ascii_of_nat (48 + n) else ascii_of_nat (87 + n).

(** One character of [repr(s)] for the chosen [quote]. Bytes from 128 up
    are the UTF-8 bytes of printable text and are kept. *)
Definition repr_char (quote c : ascii) : string :=
  let n := nat_of_ascii c in
  if Ascii.eqb c quote || Ascii.eqb c backslash then
    String backslash (String c EmptyString)
  else if Nat.eqb n 9 then String backslash "t"
  else if Nat.eqb n 10 then String backslash "n"
  else if Nat.eqb n 13 then String backslash "r"
  else if Nat.ltb n 32 || Nat.eqb n 127 then
    String backslash
      (String "x" (String (hex_digit (n / 16))
                     (String (hex_digit (n mod 16)) EmptyString)))
  else String c EmptyString.

Fixpoint repr_chars (quote : ascii) (s : string) : string :=
  match s with
  | EmptyString => EmptyString
  | String c s' => repr_char quote c ++ repr_chars quote s'
  end.

(** [repr(s)] of a string: single quotes, unless the string has a single
    quote and no double quote. *)
Definition repr_str (s : string) : string :=
  let quote :=
    if has_char squote s && negb (has_char dquote s) then dquote else squote in
  String quote (repr_chars quote s ++ String quote EmptyString).

(** The decimal text of an integer: what [str(z)] returns when it returns.
    CPython refuses to render an integer of more than 4300 digits
    ([renderable] below). *)
Definition str_of_Z (z : Z) : string := NilZero.string_of_int (Z.to_int z).

Fixpoint py_repr (v : value) : string :=
  match v with
  | VNone => "None"
  | VBool b => if b then "True" else "False"
  | VInt z => str_of_Z z
  | VFloat f => float_text f
  | VStr s => repr_str s
  | VList items => "[" ++ String.concat ", " (map py_repr items) ++ "]"
  | VDict entries =>
      "{" ++ String.concat ", "
               (map (fun kv => repr_str (fst kv) ++ ": " ++ py_repr (snd kv))
                    entries) ++ "}"
  end.

(** [str(v)]. *)
Definition py_str (v : value) : string :=
  match v with
  | VStr s => s
  | other => py_repr other
  end.

(** *** The limit on rendering integers *)

(** [sys.get_int_max_str_digits()], by default. *)
Definition int_max_str_digits : Z := 4300.

(** [str(z)] returns exactly when [z] has at most that many digits. *)
Definition renders_int (z : Z) : bool :=
  Z.ltb (Z.abs z) (10 ^ int_max_str_digits).

(** [str(v)] and [repr(v)] return: no integer in [v], at any depth, is
    beyond the limit. *)
Fixpoint renderable (v : value) : bool :=
  match v with
  | VInt z => renders_int z
  | VList items => forallb renderable items
  | VDict entries => forallb (fun kv => renderable (snd kv)) entries
  | _ => true
  end.

(** [str(v)] with its failure: [py_str] gives the text when there is one. *)
Definition py_str_checked (v : value) : result string :=
  if renderable v then Ok (py_str v)
  else
    Raise (Exn ValueError
             "Exceeds the limit (4300 digits) for integer string conversion; use sys.set_int_max_str_digits() to increase the limit").

(** ** The [re] module *)

(** [re.compile] on a string and [Pattern.search] on a string; which
    strings compile, and what a pattern finds, is the engine's business. *)
Class Regex := {
  re_pattern : Type;
  re_compile : string -> result re_pattern;
  re_search : re_pattern -> string -> bool
}.

(** [re.compile(expected)] on an arbitrary value: only a string reaches the
    engine; the cache lookup hashes the argument first. *)
Definition compile_value `{Regex} (expected : value) : result re_pattern :=
  match expected with
  | VStr s => re_compile s
  | VList _ | VDict _ =>
      Raise (Exn TypeError ("unhashable type: '" ++ type_name expected ++ "'"))
  | _ =>
      Raise (Exn TypeError "first argument must be string or compiled pattern")
  end.

(** ** The file system seen through [pathlib] *)

(** A resolved path is the list of its components below the root. *)
Definition fspath := list string.

Class FileSystem := {
  (** [Path(s).resolve()]: absolute, dots and symbolic links removed. *)
  fs_resolve : string -> fspath;
  fs_exists : fspath -> bool;
  fs_is_file : fspath -> bool;
  (** [open(mode).read()], [true] for ['rb']. *)
  fs_read : fspath -> bool -> result string
}.

(** The one observable effect of a file check. *)
Inductive fs_event := ReadFile (p : fspath) (binary : bool).

Definition render_path (p : fspath) : string := "/" ++ join_slash p.

(** [base / relative]: an absolute right operand replaces the left one. *)
Definition joinpath (base : fspath) (relative : string) : string :=
  match relative with
  | String c _ =>
      if Ascii.eqb c slash then relative
      else match base with
           | [] => "/" ++ relative
           | _ => render_path base ++ "/" ++ relative
           end
  | EmptyString => render_path base
  end.

(** [p.relative_to(base)] succeeds exactly when [base]'s components start
    [p]'s. *)
Fixpoint is_relative_to (p base : fspath) {struct base} : bool :=
  match base, p with
  | [], _ => true
  | b :: base', c :: p' => String.eqb b c && is_relative_to p' base'
  | _ :: _, [] => false
  end.

(** ** verifiers.py *)

Module MissingResultVerifier.
Definition evaluate (report : value) (report_string : string)
           (test_storage_directory : string) : result bool :=
  Raise (Exn PlainException "No verifier was attached to this objective").
End MissingResultVerifier.

Module VerifyReportSectionHasMatching.

(** The object [__init__] leaves behind: [match_criteria] is [None] or a
    list, as [check_criteria_format] has let through. *)
Record self := Build {
  path : string;
  match_criteria : option (list value);
  is_regexes : bool
}.

(** The loop of [check_criteria_format]; the test repeated inside it is
    on [self.match_criteria], a list here, and so never fires. *)
Fixpoint check_each (criteria : list value) : result unit :=
  match criteria with
  | [] => Ok tt
  | criterion :: rest =>
      n <- py_len criterion ;;
      if Nat.eqb n 1 then check_each rest
      else Raise (Exn ValueError
                    ("Invalid criteria: " ++ py_str criterion
                     ++ ". Expected exactly one key-value pair."))
  end.

Definition check_criteria_format (match_criteria : value) : result unit :=
  match match_criteria with
  | VNone => Ok tt
  | VList criteria => check_each criteria
  | other =>
      Raise (Exn TypeError
               ("match_criteria must be a list, got " ++ type_name other))
  end.

(** [VerifyReportSectionHasMatching(path, match_criteria,
    values_are_regexes)]. *)
Definition init (path : string) (match_criteria : value)
           (values_are_regexes : bool) : result self :=
  _ <- check_criteria_format match_criteria ;;
  Ok (Build path
            (match match_criteria with
             | VList criteria => Some criteria
             | _ => None
             end)
            values_are_regexes).

(** [results.extend(res)] for a list, [results.append(res)] for anything
    else but [None]. *)
Definition collect (res : value) : list value :=
  match res with
  | VList items => items
  | VNone => []
  | other => [other]
  end.

Definition flatten_results (results : list value) : list value :=
  flat_map collect results.

(** The [for i, key in enumerate(keys)] loop of [_resolve_path], entered
    with [current] and the keys still to consume, [keys[i:]]. On a list
    the source calls itself on ["/".join(keys[i:])], which splits back
    into [keys[i:]] ([split_join_slash] below). *)
Fixpoint resolve_keys (current : value) (keys : list string) {struct current}
  : value :=
  match keys with
  | [] => current
  | key :: rest =>
      match current with
      | VList items =>
          VList (flatten_results
                   (map (fun item => resolve_keys item keys) items))
      | VDict entries =>
          (fix get (es : list (string * value)) : value :=
             match es with
             | [] => VNone
             | (k, v) :: es' =>
                 if String.eqb k key then resolve_keys v rest else get es'
             end) entries
      | _ => VNone
      end
  end.

Definition _resolve_path (data : value) (path : string) : value :=
  resolve_keys data (split_slash path).

Definition has_content (s : self) (report : value) : bool :=
  let targets := _resolve_path report (path s) in
  if truthy targets then true else false.

Section with_regex.
Context `{Regex}.

Definition _verify_value (s : self) (found expected : value)
  : result bool :=
  let found_list :=
    match found with VList items => items | _ => [found] end in
  if is_regexes s then
    pattern <- compile_value expected ;;
    Ok (existsb (fun v => re_search pattern (py_str v)) found_list)
  else
    match found with
    | VList items =>
        Ok (existsb (fun v => String.eqb (py_str v) (py_str expected))
                    items)
    | _ => Ok (String.eqb (py_str found) (py_str expected))
    end.

(** [next(iter(criterion.items()))]. *)
Definition first_item (criterion : value) : result (string * value) :=
  match criterion with
  | VDict (kv :: _) => Ok kv
  | VDict [] => Raise (Exn StopIteration "")
  | other =>
      Raise (Exn AttributeError
               ("'" ++ type_name other
                ++ "' object has no attribute 'items'"))
  end.

(** The inner [for criterion in self.match_criteria] from the criteria
    still to visit; [true] stands for [return True], [false] for the
    loop running out. *)
Fixpoint criteria_loop (s : self) (match_count_target : nat)
         (target : value) (criteria : list value) (match_count : nat)
  : result bool :=
  match criteria with
  | [] => Ok false
  | criterion :: rest =>
      kv <- first_item criterion ;;
      let expected_path := fst kv in
      let expected_value := snd kv in
      let found_vals := _resolve_path target expected_path in
      matched <- _verify_value s found_vals expected_value ;;
      if matched then
        let match_count := S match_count in
        if Nat.leb match_count_target match_count then Ok true
        else criteria_loop s match_count_target target rest match_count
      else criteria_loop s match_count_target target rest match_count
  end.

(** The outer [for target in targets]. *)
Fixpoint targets_loop (s : self) (criteria : list value)
         (targets : list value) : result bool :=
  match targets with
  | [] => Ok false
  | target :: rest =>
      done <- criteria_loop s (List.length criteria) target criteria 0 ;;
      if done then Ok true else targets_loop s criteria rest
  end.

(** The target elements: the resolved value if it is a list, else the
    value alone if it is truthy, else nothing. *)
Definition targets_of (s : self) (report : value) : list value :=
  match _resolve_path report (path s) with
  | VList items => items
  | other => if truthy other then [other] else []
  end.

Definition evaluate (s : self) (report : value) (report_string : string)
           (test_storage_directory : string) : result bool :=
  let targets := targets_of s report in
  match match_criteria s with
  | None => Ok true
  | Some criteria => targets_loop s criteria targets
  end.
End with_regex.

End VerifyReportSectionHasMatching.

Module VerifyReportSectionHasContent.
Record self := Build { path : string }.

Definition evaluate (s : self) (report : value) (report_string : string)
           (test_storage_directory : string) : result bool :=
  innerVerifier <-
    VerifyReportSectionHasMatching.init (path s) (VList []) false ;;
  Ok (VerifyReportSectionHasMatching.has_content innerVerifier report).
End VerifyReportSectionHasContent.

Module VerifyReportHasExactString.
Record self := Build { pattern : string }.

Definition evaluate (s : self) (report : value) (report_string : string)
           (test_storage_directory : string) : result bool :=
  Ok (str_contains (pattern s) report_string).
End VerifyReportHasExactString.

Module VerifyReportHasPattern.
Section with_regex.
Context `{Regex}.

Record self := Build { pattern : re_pattern }.

Definition evaluate (s : self) (report : value) (report_string : string)
           (test_storage_directory : string) : result bool :=
  Ok (re_search (pattern s) report_string).
End with_regex.
End VerifyReportHasPattern.

Module VerifyFileContainsPattern.
Section with_regex_and_files.
Context `{Regex} `{FileSystem}.

(** [pattern_is_bytes] tells a pattern compiled from [bytes] from one
    compiled from [str]: [search] refuses data of the other kind. *)
Record self := Build {
  pattern : re_pattern;
  pattern_is_bytes : bool;
  relative_path : string;
  binary_mode : bool
}.

Definition search_data (s : self) (binary : bool) (data : string)
  : result bool :=
  if Bool.eqb (pattern_is_bytes s) binary then
    Ok (re_search (pattern s) data)
  else if binary then
    Raise (Exn TypeError
             "cannot use a string pattern on a bytes-like object")
  else
    Raise (Exn TypeError
             "cannot use a bytes pattern on a string-like object").

(** The outcome, and the reads performed on the way to it. *)
Definition evaluate (s : self) (report : value) (report_string : string)
           (test_storage_directory : string)
  : result bool * list fs_event :=
  let base_dir := fs_resolve test_storage_directory in
  let file_path := fs_resolve (joinpath base_dir (relative_path s)) in
  if negb (is_relative_to file_path base_dir) then
    (Raise (Exn ValueError
              ("Non-relative path supplied to VerifyFileContainsPattern: "
               ++ relative_path s)), [])
  else if negb (fs_exists file_path) then (Ok false, [])
  else if negb (fs_is_file file_path) then (Ok false, [])
  else
    let mode := binary_mode s in
    (data <- fs_read file_path mode ;; search_data s mode data,
     [ReadFile file_path mode]).
End with_regex_and_files.
End VerifyFileContainsPattern.

(** ** cape_audit.py: objectives *)

Inductive ObjectiveResult :=
| UNTESTED | SUCCESS | FAILURE | ERROR | INFO | SKIPPED.

(** [state in [ObjectiveResult.SUCCESS, ObjectiveResult.INFO]]. *)
Definition lets_children_run (st : ObjectiveResult) : bool :=
  match st with
  | SUCCESS | INFO => true
  | _ => false
  end.

(** Any object with an [evaluate(report, report_string, storage)] method. *)
Definition verifier := value -> string -> string -> result bool.

(** What a verification pass does besides updating objectives: it calls
    verifiers and writes log records. [Invoke n] is the call of the
    verifier bound to the objective named [n]. *)
Inductive event :=
| Invoke (objective : string)
| LogException (test objective : string).

Definition invocations (tr : list event) : list string :=
  flat_map (fun ev => match ev with Invoke n => [n] | _ => [] end) tr.

(** An objective owns its children: the tree is a value. [test_name] is
    [self.test.name], the one attribute of the test an objective reads. *)
Inductive CapeTestObjective := Objective {
  name : string;
  children : list CapeTestObjective;
  state : ObjectiveResult;
  state_reason : string;
  test_name : string;
  result_verifier : verifier;
  _is_informational : bool;
  requirement : string;
  _success_msg : string;
  _failure_msg : string;
  report : value;
  report_string : string;
  storage_path : string
}.

Section objective_induction.
Variable P : CapeTestObjective -> Prop.
Hypothesis step : forall o, Forall P (children o) -> P o.

Fixpoint objective_nested_ind (o : CapeTestObjective) : P o :=
  match o with
  | Objective n cs st sr tn rv inf rq sm fm rp rs sp =>
      step (Objective n cs st sr tn rv inf rq sm fm rp rs sp)
        ((fix go (l : list CapeTestObjective) : Forall P l :=
            match l with
            | [] => Forall_nil P
            | c :: l' => Forall_cons c (objective_nested_ind c) (go l')
            end) cs)
  end.
End objective_induction.

Module CapeTestObjective.

(** [CapeTestObjective(objective_name, requirement, test,
    is_informational)]. *)
Definition init (objective_name requirement test : string)
           (is_informational : bool) : CapeTestObjective :=
  Objective objective_name [] UNTESTED "Objective has not been tested yet"
    test MissingResultVerifier.evaluate is_informational requirement
    "set_success_msg() was not called when creating the objective"
    "set_failure_msg() was not called when creating the objective"
    (VDict [("error", VStr "report not initialised")])
    "error: report string not initialised"
    "error: storage path not initialised".

Definition set_state (self : CapeTestObjective) (st : ObjectiveResult)
           (reason : string) : CapeTestObjective :=
  Objective (name self) (children self) st reason (test_name self)
    (result_verifier self) (_is_informational self) (requirement self)
    (_success_msg self) (_failure_msg self) (report self)
    (report_string self) (storage_path self).

Definition set_children (self : CapeTestObjective)
           (cs : list CapeTestObjective) : CapeTestObjective :=
  Objective (name self) cs (state self) (state_reason self)
    (test_name self) (result_verifier self) (_is_informational self)
    (requirement self) (_success_msg self) (_failure_msg self)
    (report self) (report_string self) (storage_path self).

Definition set_success_msg (self : CapeTestObjective) (msg : string)
  : CapeTestObjective :=
  Objective (name self) (children self) (state self) (state_reason self)
    (test_name self) (result_verifier self) (_is_informational self)
    (requirement self) msg (_failure_msg self) (report self)
    (report_string self) (storage_path self).

Definition set_failure_msg (self : CapeTestObjective) (msg : string)
  : CapeTestObjective :=
  Objective (name self) (children self) (state self) (state_reason self)
    (test_name self) (result_verifier self) (_is_informational self)
    (requirement self) (_success_msg self) msg (report self)
    (report_string self) (storage_path self).

Definition set_result_verifier (self : CapeTestObjective)
           (evaluator_object : verifier) : CapeTestObjective :=
  Objective (name self) (children self) (state self) (state_reason self)
    (test_name self) evaluator_object (_is_informational self)
    (requirement self) (_success_msg self) (_failure_msg self)
    (report self) (report_string self) (storage_path self).

Definition set_test_data (self : CapeTestObjective) (rp : value)
           (rs sp : string) : CapeTestObjective :=
  Objective (name self) (children self) (state self) (state_reason self)
    (test_name self) (result_verifier self) (_is_informational self)
    (requirement self) (_success_msg self) (_failure_msg self) rp rs sp.

Fixpoint set_skipped (reason : string) (self : CapeTestObjective)
  : CapeTestObjective :=
  match self with
  | Objective n cs _ _ tn rv inf rq sm fm rp rs sp =>
      Objective n (map (set_skipped reason) cs) SKIPPED reason
        tn rv inf rq sm fm rp rs sp
  end.

(** [add_child_objective]: a sibling's name may not be taken twice. *)
Definition add_child_objective (self objective : CapeTestObjective)
  : result CapeTestObjective :=
  if existsb (String.eqb (name objective)) (map name (children self)) then
    Raise (Exn ValueError
             ("Objective " ++ name self
              ++ " already has a child objective called "
              ++ name objective))
  else
    Ok (set_children self
          (children self
           ++ [set_test_data objective (report self) (report_string self)
                 (storage_path self)])%list).

(** The [try]/[except] of [run_objective_verification]: the objective
    with its new state and reason, and what happened. *)
Definition verify_self (self : CapeTestObjective)
  : result (CapeTestObjective * list event) :=
  try_except
    (result <- result_verifier self (report self) (report_string self)
                 (storage_path self) ;;
     let reason :=
       if result then _success_msg self else _failure_msg self in
     let st :=
       if _is_informational self then INFO
       else if result then SUCCESS else FAILURE in
     Ok (set_state self st reason, [Invoke (name self)]))
    (fun e =>
       Ok (set_state self ERROR
             ("An exception was thrown during verification: " ++ exn_str e),
           [Invoke (name self); LogException (test_name self) (name self)])).

(** [o.set_test_data(rp, rs, sp); o.run_objective_verification()], the
    pair of calls every caller makes on a child or a root. *)
Fixpoint run_with (rp : value) (rs sp : string) (o : CapeTestObjective)
         {struct o} : result (CapeTestObjective * list event) :=
  let self := set_test_data o rp rs sp in
  r <- verify_self self ;;
  let self := fst r in
  if lets_children_run (state self) then
    cs <- (fix each (l : list CapeTestObjective)
             : result (list CapeTestObjective * list event) :=
             match l with
             | [] => Ok ([], [])
             | child :: rest =>
                 c <- run_with rp rs sp child ;;
                 cs <- each rest ;;
                 Ok (fst c :: fst cs, (snd c ++ snd cs)%list)
             end) (children o) ;;
    Ok (set_children self (fst cs), (snd r ++ snd cs)%list)
  else
    Ok (set_children self
          (map (set_skipped "The parent objective was not met")
               (children o)),
        snd r).

Definition run_objective_verification (self : CapeTestObjective)
  : result (CapeTestObjective * list event) :=
  run_with (report self) (report_string self) (storage_path self) self.

(** Every objective below [o], children first then theirs. *)
Fixpoint descendants (o : CapeTestObjective) : list CapeTestObjective :=
  match o with
  | Objective _ cs _ _ _ _ _ _ _ _ _ _ _ =>
      flat_map (fun c => c :: descendants c) cs
  end.

End CapeTestObjective.

Module CapeDynamicTestBase.
Import CapeTestObjective.

(** The part of a test a verification pass uses. *)
Record self := Build {
  test_name : string;
  _objectives : list CapeTestObjective;
  report : value;
  report_string : string;
  test_storage_directory : string
}.

(** The loop of [_run_objective_verification]. *)
Fixpoint run_each (rp : value) (rs sp : string)
         (objectives : list CapeTestObjective)
  : result (list CapeTestObjective * list event) :=
  match objectives with
  | [] => Ok ([], [])
  | objective :: rest =>
      o <- run_with rp rs sp objective ;;
      os <- run_each rp rs sp rest ;;
      Ok (fst o :: fst os, (snd o ++ snd os)%list)
  end.

Definition _run_objective_verification (t : self)
  : result (self * list event) :=
  r <- run_each (report t) (report_string t) (test_storage_directory t)
         (_objectives t) ;;
  Ok (Build (test_name t) (fst r) (report t) (report_string t)
            (test_storage_directory t),
      snd r).

Definition add_objective (t : self) (objective : CapeTestObjective)
  : result self :=
  if existsb (String.eqb (name objective)) (map name (_objectives t)) then
    Raise (Exn ValueError
             ("Test already has an Objective called " ++ name objective))
  else
    Ok (Build (test_name t) (_objectives t ++ [objective])%list (report t)
              (report_string t) (test_storage_directory t)).
End CapeDynamicTestBase.

(** ** cape_audit.py: results and metadata *)

(** [d[key] = v]: a key already there keeps its place. *)
Fixpoint dict_set (entries : list (string * value)) (key : string)
         (v : value) : list (string * value) :=
  match entries with
  | [] => [(key, v)]
  | (k, x) :: rest =>
      if String.eqb k key then (k, v) :: rest
      else (k, x) :: dict_set rest key v
  end.

(** The value of a member of [ObjectiveResult], which [str] returns. *)
Definition ObjectiveResult_str (st : ObjectiveResult) : string :=
  match st with
  | UNTESTED => "untested"
  | SUCCESS => "success"
  | FAILURE => "failure"
  | ERROR => "error"
  | INFO => "info"
  | SKIPPED => "skipped"
  end.

Inductive OSTarget := WINDOWS | LINUX | MACOS | ANDROID | IOS.

Definition OSTarget_str (t : OSTarget) : string :=
  match t with
  | WINDOWS => "windows"
  | LINUX => "linux"
  | MACOS => "macos"
  | ANDROID => "android"
  | IOS => "ios"
  end.

Module ObjectiveResults.

(** [CapeTestObjective.get_results]. A state is a string, the member of a
    [str] enumeration; the children are entered under their names one
    after the other. *)
Fixpoint get_results (self : CapeTestObjective) : value :=
  match self with
  | Objective _ cs st sr _ _ _ _ _ _ _ _ _ =>
      VDict [("state", VStr (ObjectiveResult_str st));
             ("state_reason", VStr sr);
             ("children",
              VDict (fold_left
                       (fun d child => dict_set d (name child) (get_results child))
                       cs []))]
  end.

(** [CapeDynamicTestBase.get_results] on the roots of a test. *)
Definition get_test_results (objectives : list CapeTestObjective) : value :=
  VDict (fold_left
           (fun d objective =>
              dict_set d (name objective) (get_results objective))
           objectives []).

(** [v[key]] of a result, [None] standing for what is not there. *)
Definition item (v : value) (key : string) : value :=
  match v with
  | VDict entries => dict_get entries key
  | _ => VNone
  end.

Definition keys (v : value) : list string :=
  match v with
  | VDict entries => map fst entries
  | _ => []
  end.

End ObjectiveResults.

Module TestMetadata.

(** The attributes of [CapeDynamicTestBase] its metadata methods use. *)
Record self := Build {
  name : string;
  package : string;
  _metadata : list (string * value)
}.

Definition put (t : self) (key : string) (v : value) : self :=
  Build (name t) (package t) (dict_set (_metadata t) key v).

Definition set_description (t : self) (test_description : string) : self :=
  put t "Description" (VStr test_description).

(** [None] or a string. *)
Definition set_payload_notes (t : self) (payload_notes : value) : self :=
  put t "Payload Notes" payload_notes.

Definition set_result_notes (t : self) (result_notes : value) : self :=
  put t "Result Notes" result_notes.

Definition set_zip_password (t : self) (password : value) : self :=
  put t "Zip Password" password.

(** [int(analysis_timeout)] of an integer is the integer. *)
Definition set_task_timeout_seconds (t : self) (analysis_timeout : Z) : self :=
  put t "Timeout" (VInt analysis_timeout).

Definition set_enforce_timeout (t : self) (val : value) : result self :=
  match val with
  | VBool _ => Ok (put t "Enforce Timeout" val)
  | _ => Raise (Exn ValueError "Bad Enforce Timeout Value - Must be True/False")
  end.

(** One target, or a list of targets. *)
Definition set_os_targets (t : self) (targets : OSTarget + list OSTarget)
  : self :=
  match targets with
  | inl target => put t "Targets" (VList [VStr (OSTarget_str target)])
  | inr l => put t "Targets" (VList (map (fun x => VStr (OSTarget_str x)) l))
  end.

(** A dictionary of JSON values always serialises; what is stored depends
    on its ["Request Options"] entry. *)
Definition set_task_config (t : self) (task_config : list (string * value))
  : self :=
  match dict_get task_config "Request Options" with
  | VNone => put t "Task Config" (VStr "")
  | _ => put t "Task Config" (VDict task_config)
  end.

(** [CapeDynamicTestBase(test_name, analysis_package)]. *)
Definition init (test_name analysis_package : string) : result self :=
  let t := Build test_name analysis_package
                 [("Name", VStr test_name); ("Package", VStr analysis_package)] in
  let t := set_task_timeout_seconds t 120 in
  let t := set_description t "No description set for this test" in
  let t := set_zip_password t VNone in
  let t := set_payload_notes t VNone in
  let t := set_result_notes t VNone in
  t <- set_enforce_timeout t (VBool false) ;;
  let t := set_os_targets t (inr []) in
  Ok (set_task_config t []).

Definition init_metadata (t : self) (metadata : list (string * value)) : self :=
  Build (name t) (package t)
        (dict_set (dict_set metadata "Name" (VStr (name t)))
                  "Package" (VStr (package t))).

Definition get_metadata (t : self) : value := VDict (_metadata t).

(** A call of one of the methods above. *)
Inductive call :=
| SetDescription (d : string)
| SetPayloadNotes (v : value)
| SetResultNotes (v : value)
| SetZipPassword (v : value)
| SetTimeout (z : Z)
| SetEnforceTimeout (v : value)
| SetOsTargets (ts : OSTarget + list OSTarget)
| SetTaskConfig (c : list (string * value))
| InitMetadata (m : list (string * value)).

(** The test after the call; a call that raises leaves it as it was. *)
Definition perform (t : self) (c : call) : self :=
  match c with
  | SetDescription d => set_description t d
  | SetPayloadNotes v => set_payload_notes t v
  | SetResultNotes v => set_result_notes t v
  | SetZipPassword v => set_zip_password t v
  | SetTimeout z => set_task_timeout_seconds t z
  | SetEnforceTimeout v =>
      match set_enforce_timeout t v with
      | Ok t' => t'
      | Raise _ => t
      end
  | SetOsTargets ts => set_os_targets t ts
  | SetTaskConfig c => set_task_config t c
  | InitMetadata m => init_metadata t m
  end.

End TestMetadata.

(** The objectives of a list run one after the other: [o] becomes [o']
    with the events [t], each triple in [P]. *)
Inductive Forall_run (P : CapeTestObjective -> CapeTestObjective ->
                          list event -> Prop)
  : list CapeTestObjective -> list CapeTestObjective -> list event -> Prop :=
| Forall_run_nil : Forall_run P [] [] []
| Forall_run_cons o o' t os os' ts :
    P o o' t -> Forall_run P os os' ts ->
    Forall_run P (o :: os) (o' :: os') (t ++ ts)%list.

Definition is_skipped (st : ObjectiveResult) : bool :=
  match st with SKIPPED => true | _ => false end.

(** An objective and everything below it, parents before children. *)
Definition subtree (o : CapeTestObjective) : list CapeTestObjective :=
  o :: CapeTestObjective.descendants o.

(** ** Instances used to run the model on examples *)

(** The engine restricted to literal patterns: every string compiles, and
    a search is a substring test. *)
Definition literal_regex : Regex :=
  {| re_pattern := string;
     re_compile := fun s => Ok s;
     re_search := fun p s => str_contains p s |}.

(** [Path.resolve] on a file system with no symbolic links, from the root
    as working directory. The stack holds the components kept so far, last
    first. *)
Fixpoint normalize (comps stack : list string) : fspath :=
  match comps with
  | [] => rev stack
  | c :: rest =>
      if String.eqb c "" || String.eqb c "." then normalize rest stack
      else if String.eqb c ".." then normalize rest (tl stack)
      else normalize rest (c :: stack)
  end.

Fixpoint find_file (files : list (fspath * string)) (p : fspath)
  : option string :=
  match files with
  | [] => None
  | (q, data) :: rest =>
      if list_eq_dec string_dec q p then Some data else find_file rest p
  end.

(** A file system holding the regular files [files] and nothing else. *)
Definition flat_files (files : list (fspath * string)) : FileSystem :=
  {| fs_resolve := fun s => normalize (split_slash s) [];
     fs_exists := fun p =>
       match find_file files p with Some _ => true | None => false end;
     fs_is_file := fun p =>
       match find_file files p with Some _ => true | None => false end;
     fs_read := fun p _ =>
       match find_file files p with
       | Some data => Ok data
       | None => Raise (Exn OSError "No such file or directory")
       end |}.

(** The report of the specification's examples, with two more processes. *)
Definition example_report : value :=
  VDict [("behavior",
          VDict [("processes",
                  VList [VDict [("calls",
                                 VList [VDict [("api", VStr "OutputDebugStringA");
                                               ("arguments",
                                                VDict [("value", VStr "FLAG_1")])]])];
                         VDict [("pid", VInt 4)];
                         VDict [("calls", VList [VDict [("api", VStr "Sleep")]])]])])].

(** Stub verifiers, and a tree of three objectives one below the other. *)
Definition returns_true : verifier := fun _ _ _ => Ok true.
Definition returns_false : verifier := fun _ _ _ => Ok false.
Definition raises_fault : verifier :=
  fun _ _ _ => Raise (Exn ValueError "unreadable report section").

Definition leaf (objective_name : string) (v : verifier) : CapeTestObjective :=
  CapeTestObjective.set_result_verifier
    (CapeTestObjective.init objective_name "requirement" "demo" false) v.

Definition example_chain (root_verifier : verifier) : CapeTestObjective :=
  CapeTestObjective.set_children (leaf "root" root_verifier)
    [CapeTestObjective.set_children (leaf "child" returns_true)
       [leaf "grandchild" returns_true]].

Definition example_test : CapeDynamicTestBase.self :=
  CapeDynamicTestBase.Build "demo"
    [leaf "faulty" raises_fault; leaf "sound" returns_true]
    example_report "{}" "/tmp/case1".

(** ** Notions the statements use *)

(** The node reached from [node] by looking [keys] up one mapping after
    the other; [None] when a node on the way is not a mapping. *)
Fixpoint descend (node : value) (keys : list string) : option value :=
  match keys with
  | [] => Some node
  | key :: rest =>
      match node with
      | VDict entries => descend (dict_get entries key) rest
      | _ => None
      end
  end.

Definition segment (k : string) : Prop := has_slash k = false.

(** A target element satisfies a criterion as the code tests it: the value
    found at the criterion's path below the element passes
    [_verify_value]. This is the test of the source, under which a value
    that is not there passes against the text ["None"]. *)
Definition satisfies `{Regex} (s : VerifyReportSectionHasMatching.self)
           (target criterion : value) : Prop :=
  exists kv,
    VerifyReportSectionHasMatching.first_item criterion = Ok kv
    /\ VerifyReportSectionHasMatching._verify_value s
         (VerifyReportSectionHasMatching._resolve_path target (fst kv))
         (snd kv) = Ok true.

(** The match rule as the specification words it, in exact mode: the
    found value becomes a sequence, a scalar wrapped, a sequence kept,
    an absent value giving the empty sequence; the rule succeeds when the
    text of one element is the text of the expected value. *)
Definition spec_normalize (found : value) : list value :=
  match found with
  | VNone => []
  | VList items => items
  | other => [other]
  end.

Definition spec_match_exact (found expected : value) : bool :=
  existsb (fun v => String.eqb (py_str v) (py_str expected))
          (spec_normalize found).

(** A target element satisfies a criterion by that rule. *)
Definition spec_satisfies_exact (target criterion : value) : bool :=
  match criterion with
  | VDict [(relative_path, expected)] =>
      spec_match_exact
        (VerifyReportSectionHasMatching._resolve_path target relative_path)
        expected
  | _ => false
  end.



(** "Has content" as the specification words it: a non-empty list, or a
    scalar that is not null. *)
Definition spec_has_content (resolved : value) : bool :=
  match resolved with
  | VNone => false
  | VList items => match items with [] => false | _ => true end
  | _ => true
  end.

(** The reason [run_objective_verification] gives a skipped subtree. *)
Definition parent_unmet : string := "The parent objective was not met".

(** A node and its children agree: the children are skipped exactly when
    the node's state does not let them run. *)
Definition cascaded (n : CapeTestObjective) : Prop :=
  Forall (fun c => is_skipped (state c) = negb (lets_children_run (state n)))
         (children n).

(** A node carries the report, raw text and storage path given. *)
Definition has_test_data (rp : value) (rs sp : string)
           (d : CapeTestObjective) : Prop :=
  report d = rp /\ report_string d = rs /\ storage_path d = sp.

(** * Properties *)

(** ** Splitting and joining paths *)

Lemma split_slash_nonempty (s : string) : split_slash s <> [].
Proof.
  destruct s as [|c s]; simpl; [discriminate|].
  destruct (Ascii.eqb c slash); [discriminate|].
  destruct (split_slash s); discriminate.
Qed.

Lemma join_slash_cons (k : string) (k' : string) (ks : list string) :
  join_slash (k :: k' :: ks) = k ++ String slash (join_slash (k' :: ks)).
Proof. reflexivity. Qed.

Lemma join_slash_head (c : ascii) (k : string) (ks : list string) :
  join_slash (String c k :: ks) = String c (join_slash (k :: ks)).
Proof. destruct ks; reflexivity. Qed.

Lemma join_split_slash (s : string) : join_slash (split_slash s) = s.
Proof.
  induction s as [|c s IH]; [reflexivity|].
  pose proof (split_slash_nonempty s) as Hne.
  simpl. destruct (Ascii.eqb_spec c slash) as [->|Hc];
    destruct (split_slash s) as [|k ks]; try contradiction.
  - rewrite join_slash_cons, IH. reflexivity.
  - rewrite join_slash_head, IH. reflexivity.
Qed.

Lemma split_slash_segment (k : string) :
  has_slash k = false -> split_slash k = [k].
Proof.
  induction k as [|c k IH]; simpl; [reflexivity|].
  intros Hk. apply orb_false_iff in Hk as [Hc Hk].
  rewrite Hc, (IH Hk). reflexivity.
Qed.

Lemma split_slash_app (k rest : string) :
  has_slash k = false ->
  split_slash (k ++ String slash rest) = k :: split_slash rest.
Proof.
  induction k as [|c k IH]; simpl; [reflexivity|].
  intros Hk. apply orb_false_iff in Hk as [Hc Hk].
  rewrite Hc. rewrite (IH Hk). reflexivity.
Qed.

(** Splitting a joined list of segments gives the segments back: the
    recursive call of [_resolve_path] on ["/".join(keys[i:])] sees
    [keys[i:]]. *)
Lemma split_join_slash (keys : list string) :
  keys <> [] ->
  Forall (fun k => has_slash k = false) keys ->
  split_slash (join_slash keys) = keys.
Proof.
  induction keys as [|k ks IH]; [congruence|].
  intros _ Hall. inversion Hall as [|? ? Hk Hks]; subst.
  destruct ks as [|k' ks].
  - simpl. now apply split_slash_segment.
  - rewrite join_slash_cons, split_slash_app by assumption.
    rewrite IH; [reflexivity|discriminate|assumption].
Qed.

Lemma split_slash_segments (s : string) :
  Forall (fun k => has_slash k = false) (split_slash s).
Proof.
  induction s as [|c s IH]; simpl.
  - constructor; [reflexivity|constructor].
  - destruct (Ascii.eqb c slash) eqn:Hc.
    + constructor; [reflexivity|assumption].
    + destruct (split_slash s) as [|k ks]; simpl.
      * constructor; [simpl; now rewrite Hc|constructor].
      * inversion IH; subst. constructor; [simpl|assumption].
        rewrite Hc. assumption.
Qed.

(** ** Path resolution *)

Section resolution.
Import VerifyReportSectionHasMatching.

Lemma resolve_keys_nil (v : value) : resolve_keys v [] = v.
Proof. destruct v; reflexivity. Qed.

Lemma resolve_keys_none (keys : list string) : resolve_keys VNone keys = VNone.
Proof. destruct keys; reflexivity. Qed.

(** On a mapping one segment is consumed by [current.get(key)]. *)
Lemma resolve_keys_dict entries key rest :
  resolve_keys (VDict entries) (key :: rest)
  = resolve_keys (dict_get entries key) rest.
Proof.
  induction entries as [|[k v] entries IH].
  - now destruct rest.
  - simpl in *. destruct (String.eqb k key); [reflexivity|exact IH].
Qed.

(** On a list no segment is consumed. *)
Lemma resolve_keys_list items key rest :
  resolve_keys (VList items) (key :: rest)
  = VList (flatten_results
             (map (fun item => resolve_keys item (key :: rest)) items)).
Proof. reflexivity. Qed.

Lemma resolve_keys_scalar v key rest :
  (forall items, v <> VList items) ->
  (forall entries, v <> VDict entries) ->
  resolve_keys v (key :: rest) = VNone.
Proof.
  intros Hl Hd. destruct v; try reflexivity.
  - now destruct (Hl items).
  - now destruct (Hd entries).
Qed.

(** The string the source recurses on resolves as the keys it stands for. *)
Lemma resolve_path_join v keys :
  keys <> [] -> Forall segment keys ->
  _resolve_path v (join_slash keys) = resolve_keys v keys.
Proof.
  intros Hne Hall. unfold _resolve_path.
  now rewrite split_join_slash.
Qed.

(** The recursion of the source, as written there: on a list, the
    remaining path is resolved against every item. *)
Lemma resolve_path_list items path :
  _resolve_path (VList items) path
  = VList (flatten_results
             (map (fun item => _resolve_path item path) items)).
Proof.
  unfold _resolve_path.
  pose proof (split_slash_nonempty path) as Hne.
  destruct (split_slash path) as [|key rest]; [contradiction|].
  reflexivity.
Qed.

(** On a mapping the source looks the first segment up and goes on with
    the others. *)
Lemma resolve_path_dict entries key rest :
  has_slash key = false -> Forall segment rest -> rest <> [] ->
  _resolve_path (VDict entries) (join_slash (key :: rest))
  = _resolve_path (dict_get entries key) (join_slash rest).
Proof.
  intros Hkey Hrest Hne.
  rewrite !resolve_path_join; try assumption; try discriminate.
  - apply resolve_keys_dict.
  - now constructor.
Qed.

Lemma resolve_path_last entries key :
  has_slash key = false ->
  _resolve_path (VDict entries) key = dict_get entries key.
Proof.
  intros Hkey. unfold _resolve_path. rewrite split_slash_segment by assumption.
  rewrite resolve_keys_dict. apply resolve_keys_nil.
Qed.

Lemma resolve_keys_descend doc pre rest node :
  descend doc pre = Some node ->
  rest <> [] ->
  resolve_keys doc (pre ++ rest) = resolve_keys node rest.
Proof.
  revert doc. induction pre as [|key pre IH]; intros doc Hd Hne; simpl in *.
  - now inversion Hd.
  - destruct doc; try discriminate.
    rewrite resolve_keys_dict. now apply IH.
Qed.

Lemma flatten_results_app rs1 rs2 :
  flatten_results (rs1 ++ rs2)
  = (flatten_results rs1 ++ flatten_results rs2)%list.
Proof. apply flat_map_app. Qed.

End resolution.

Section fan_out.
Import VerifyReportSectionHasMatching.

(** C5. Fan-out: when the walk from the document down the mappings named
    by the first segments of a path reaches a list while segments remain,
    no segment is consumed on the list; the remaining path is resolved
    against each item in order and the results are flattened: a list
    result contributes its items, [None] contributes nothing, any other
    result contributes itself, in the order of the items. *)
Theorem C5_resolve_path_fans_out
        (doc : value) (path : string) (pre rest : list string)
        (items : list value) :
  split_slash path = (pre ++ rest)%list ->
  rest <> [] ->
  descend doc pre = Some (VList items) ->
  _resolve_path doc path
  = VList (flatten_results
             (map (fun item => _resolve_path item (join_slash rest)) items))
  /\ flatten_results [] = []
  /\ (forall l rs,
        flatten_results (VList l :: rs) = (l ++ flatten_results rs)%list)
  /\ (forall rs, flatten_results (VNone :: rs) = flatten_results rs)
  /\ (forall v rs,
        v <> VNone -> is_list v = false ->
        flatten_results (v :: rs) = v :: flatten_results rs).
Proof.
  intros Hsplit Hne Hdesc.
  assert (Hseg : Forall segment rest).
  { pose proof (split_slash_segments path) as Hall.
    rewrite Hsplit in Hall. apply Forall_app in Hall. apply Hall. }
  split; [|repeat split].
  - unfold _resolve_path at 1. rewrite Hsplit.
    rewrite (resolve_keys_descend _ _ _ _ Hdesc Hne).
    destruct rest as [|key rest']; [congruence|].
    rewrite resolve_keys_list. do 2 f_equal.
    apply map_ext. intros item.
    symmetry. now apply resolve_path_join.
  - intros v rs Hv Hl. destruct v; try reflexivity; simpl in *; congruence.
Qed.

Lemma C5_resolve_path_fans_out_witness :
  _resolve_path example_report "behavior/processes/calls"
  = VList [VDict [("api", VStr "OutputDebugStringA");
                  ("arguments", VDict [("value", VStr "FLAG_1")])];
           VDict [("api", VStr "Sleep")]].
Proof.
  pose proof
    (C5_resolve_path_fans_out example_report "behavior/processes/calls"
       ["behavior"; "processes"] ["calls"]
       [VDict [("calls",
                VList [VDict [("api", VStr "OutputDebugStringA");
                              ("arguments",
                               VDict [("value", VStr "FLAG_1")])]])];
        VDict [("pid", VInt 4)];
        VDict [("calls", VList [VDict [("api", VStr "Sleep")]])]]
       eq_refl ltac:(discriminate) eq_refl) as [Heq _].
  rewrite Heq. reflexivity.
Defined.
End fan_out.

(** ** The match rule *)

Section match_rule.
Import VerifyReportSectionHasMatching.
Context `{Regex}.

(** An empty list of found values matches nothing, in either mode: the
    call returns [False] or raises on the pattern. *)
Lemma verify_value_empty (s : self) (expected : value) :
  _verify_value s (VList []) expected <> Ok true.
Proof.
  unfold _verify_value. destruct (is_regexes s); [|discriminate].
  destruct (compile_value expected); discriminate.
Qed.

(** A found list is matched item by item. *)
Lemma verify_value_list_exact (s : self) (items : list value) expected :
  is_regexes s = false ->
  _verify_value s (VList items) expected
  = Ok (existsb (fun v => String.eqb (py_str v) (py_str expected)) items).
Proof. intros Hrx. unfold _verify_value. now rewrite Hrx. Qed.

(** Only the pattern can make [_verify_value] raise: whether it returns
    does not depend on the found value. *)
Lemma verify_value_returns (s : self) (found found' expected : value) b :
  _verify_value s found expected = Ok b ->
  exists b', _verify_value s found' expected = Ok b'.
Proof.
  unfold _verify_value. destruct (is_regexes s).
  - destruct (compile_value expected); [|discriminate].
    intros _. simpl. eauto.
  - intros _. destruct found'; eauto.
Qed.

(** C1. The found value [None], what a criterion path that resolves to
    nothing yields, is wrapped as the one-item list [[None]] and compared
    through [str(None)]: against the expected value ["None"] it matches,
    and a verifier whose only criterion names a key no target has then
    succeeds. *)
Theorem C1_absent_value_matches_None :
  _verify_value (Build "behavior/processes" None false) VNone (VStr "None")
  = Ok true
  /\ _resolve_path (VDict [("pid", VInt 4)]) "missing" = VNone
  /\ evaluate
       (Build "procs" (Some [VDict [("missing", VStr "None")]]) false)
       (VDict [("procs", VList [VDict [("pid", VInt 4)]])]) "" ""
     = Ok true.
Proof. repeat split. Qed.

(** C2. A criteria list whose element is a one-character string, or a
    one-item list, passes [check_criteria_format]: construction succeeds,
    and the malformation surfaces when [evaluate] asks the element for
    its [items()]. *)
Theorem C2_non_mapping_criterion_accepted :
  check_criteria_format (VList [VStr "a"]) = Ok tt
  /\ check_criteria_format (VList [VList [VInt 1]]) = Ok tt
  /\ init "procs" (VList [VStr "a"]) false
     = Ok (Build "procs" (Some [VStr "a"]) false)
  /\ evaluate (Build "procs" (Some [VStr "a"]) false)
       (VDict [("procs", VList [VDict [("pid", VInt 4)]])]) "" ""
     = Raise (Exn AttributeError "'str' object has no attribute 'items'").
Proof. repeat split. Qed.

(** What the format check does reject. *)
Lemma check_criteria_format_not_list (match_criteria : value) :
  match_criteria <> VNone -> is_list match_criteria = false ->
  check_criteria_format match_criteria
  = Raise (Exn TypeError
             ("match_criteria must be a list, got "
              ++ type_name match_criteria)).
Proof. destruct match_criteria; simpl; congruence. Qed.

Lemma check_each_ok (criteria : list value) :
  check_each criteria = Ok tt <->
  Forall (fun c => py_len c = Ok 1) criteria.
Proof.
  induction criteria as [|c cs IH]; simpl.
  - split; [constructor|reflexivity].
  - destruct (py_len c) as [n|e] eqn:Hlen; simpl.
    + destruct (Nat.eqb_spec n 1) as [->|Hn].
      * rewrite IH. split; [now constructor|now inversion 1].
      * split; [discriminate|]. inversion 1; subst. congruence.
    + split; [discriminate|]. inversion 1; subst. congruence.
Qed.



Lemma targets_loop_no_criteria (s : self) (targets : list value) :
  targets_loop s [] targets = Ok false.
Proof. induction targets as [|t ts IH]; simpl; [reflexivity|exact IH]. Qed.

(** C10. With the empty list as criteria, construction succeeds and
    [evaluate] returns [False] on every report, whatever the bound path
    resolves to. *)
Theorem C10_empty_criteria_never_succeed
        (path : string) (rx : bool) (report : value)
        (report_string test_storage_directory : string) :
  init path (VList []) rx = Ok (Build path (Some []) rx)
  /\ evaluate (Build path (Some []) rx) report report_string
       test_storage_directory = Ok false.
Proof.
  split; [reflexivity|].
  unfold evaluate. simpl. apply targets_loop_no_criteria.
Qed.

End match_rule.

(** ** The criteria loops *)

Section criteria.
Import VerifyReportSectionHasMatching.
Context `{Regex}.

(** The count cannot reach the target when fewer criteria are left than
    are still needed. *)
Lemma criteria_loop_short (s : self) n target criteria count :
  count + List.length criteria < n ->
  criteria_loop s n target criteria count <> Ok true.
Proof.
  revert count. induction criteria as [|c cs IH]; intros count Hlt; simpl.
  - discriminate.
  - destruct (first_item c) as [kv|e]; simpl; [|discriminate].
    destruct (_verify_value s _ (snd kv)) as [[|]|e]; simpl;
      [| |discriminate].
    + destruct (Nat.leb_spec n (S count)); [simpl in Hlt; lia|].
      apply IH. simpl in Hlt. lia.
    + apply IH. simpl in Hlt. lia.
Qed.

(** When every criterion left is needed, [return True] means each of
    them matched on this target. *)
Lemma criteria_loop_true (s : self) n target criteria count :
  count + List.length criteria <= n ->
  criteria_loop s n target criteria count = Ok true ->
  Forall (satisfies s target) criteria.
Proof.
  revert count. induction criteria as [|c cs IH]; intros count Hle; simpl.
  - constructor.
  - destruct (first_item c) as [kv|e] eqn:Hkv; simpl; [|discriminate].
    destruct (_verify_value s _ (snd kv)) as [[|]|e] eqn:Hv; simpl;
      [| |discriminate].
    + intros Hloop. constructor.
      * exists kv. split; assumption.
      * destruct (Nat.leb_spec n (S count)).
        -- simpl in Hle. assert (List.length cs = 0) as Hcs by lia.
           destruct cs; [constructor|discriminate].
        -- apply (IH (S count)); [simpl in Hle; lia|assumption].
    + intros Hloop. exfalso.
      apply (criteria_loop_short s n target cs count); [simpl in Hle; lia|].
      assumption.
Qed.

Lemma targets_loop_true (s : self) criteria targets :
  targets_loop s criteria targets = Ok true ->
  exists target,
    In target targets /\ Forall (satisfies s target) criteria.
Proof.
  induction targets as [|t ts IH]; simpl; [discriminate|].
  destruct (criteria_loop s (List.length criteria) t criteria 0)
    as [[|]|e] eqn:Hloop; simpl; [| |discriminate].
  - intros _. exists t. split; [now left|].
    eapply criteria_loop_true; [|exact Hloop]. lia.
  - intros Hts. destruct (IH Hts) as (t' & Hin & Hall).
    exists t'. split; [now right|assumption].
Qed.

(** A criterion some target satisfies is well formed: on any other
    target its test returns. *)
Lemma not_satisfied_returns_false (s : self) target target' c :
  satisfies s target' c -> ~ satisfies s target c ->
  exists kv,
    first_item c = Ok kv
    /\ _verify_value s (_resolve_path target (fst kv)) (snd kv) = Ok false.
Proof.
  intros (kv & Hkv & Hv) Hnot. exists kv. split; [assumption|].
  destruct (verify_value_returns s _ (_resolve_path target (fst kv)) _ _ Hv)
    as [[|] Hb]; [|assumption].
  exfalso. apply Hnot. exists kv. split; assumption.
Qed.

(** With [satisfies], the test of the code, credit is element-local. If
    [evaluate] returns [True] on a criteria list, one target element
    passes the test of every criterion of the list. With two target
    elements A and B and two criteria, A passing only the first test and
    B only the second, [evaluate] returns [False]. *)
Lemma credit_is_element_local
        (s : self) (criteria : list value) (report : value)
        (report_string test_storage_directory : string) :
  match_criteria s = Some criteria ->
  (evaluate s report report_string test_storage_directory = Ok true ->
   exists target,
     In target (targets_of s report)
     /\ Forall (satisfies s target) criteria)
  /\ (forall A B c1 c2,
        targets_of s report = [A; B] ->
        criteria = [c1; c2] ->
        satisfies s A c1 -> ~ satisfies s A c2 ->
        satisfies s B c2 -> ~ satisfies s B c1 ->
        evaluate s report report_string test_storage_directory = Ok false).
Proof.
  intros Hcrit. unfold evaluate. rewrite Hcrit. split.
  - apply targets_loop_true.
  - intros A B c1 c2 Htargets -> HA1 HA2 HB2 HB1.
    rewrite Htargets.
    destruct (not_satisfied_returns_false s A B c2 HB2 HA2)
      as (kvA2 & HkA2 & HvA2).
    destruct (not_satisfied_returns_false s B A c1 HA1 HB1)
      as (kvB1 & HkB1 & HvB1).
    destruct HA1 as (kvA1 & HkA1 & HvA1).
    destruct HB2 as (kvB2 & HkB2 & HvB2).
    assert (kvB1 = kvA1) as -> by congruence.
    assert (kvB2 = kvA2) as -> by congruence.
    simpl. rewrite HkA1. simpl. rewrite HvA1. simpl.
    rewrite HkA2. simpl. rewrite HvA2. simpl.
    rewrite HvB1. simpl. rewrite HvB2. reflexivity.
Qed.

(** The test of the code is the rule of the specification on every found
    value but the absent one. *)
Lemma verify_value_is_spec_rule (s : self) (found expected : value) :
  is_regexes s = false ->
  found <> VNone ->
  _verify_value s found expected = Ok (spec_match_exact found expected).
Proof.
  intros Hrx Hfound. unfold _verify_value, spec_match_exact. rewrite Hrx.
  destruct found; try congruence; simpl; now rewrite ?orb_false_r.
Qed.

(** C6. The claim's scenario on the code. Element A has an [api] entry
    and no [status] entry; element B has both. By the match rule of the
    specification A satisfies the first criterion and not the second, B
    the second and not the first. The code credits A with the second
    criterion as well, the status that is not there being compared as the
    text ["None"], and [evaluate] returns [True]. *)
Theorem C6_absent_value_earns_credit :
  let A := VDict [("api", VStr "OpenFile")] in
  let B := VDict [("api", VStr "Sleep"); ("status", VStr "None")] in
  let c1 := VDict [("api", VStr "OpenFile")] in
  let c2 := VDict [("status", VStr "None")] in
  let s := Build "calls" (Some [c1; c2]) false in
  let report := VDict [("calls", VList [A; B])] in
  targets_of s report = [A; B]
  /\ spec_satisfies_exact A c1 = true
  /\ spec_satisfies_exact A c2 = false
  /\ spec_satisfies_exact B c2 = true
  /\ spec_satisfies_exact B c1 = false
  /\ _resolve_path A "status" = VNone
  /\ _verify_value s (_resolve_path A "status") (VStr "None") = Ok true
  /\ evaluate s report "" "" = Ok true.
Proof. repeat split. Qed.



(** What is found below a value that renders does render: [str] returns
    on every found value of a report that renders. *)
Lemma renderable_flatten (results : list value) :
  forallb renderable results = true ->
  forallb renderable (flatten_results results) = true.
Proof.
  induction results as [|r rs IH]; [reflexivity|].
  cbn [forallb]. intros Hall. apply andb_true_iff in Hall as [Hr Hrs].
  unfold flatten_results. cbn [flat_map]. rewrite forallb_app.
  apply andb_true_iff. split; [|now apply IH].
  destruct r; try exact Hr; cbn [collect forallb]; now rewrite ?Hr.
Qed.

Lemma renderable_dict_get entries key :
  forallb (fun kv => renderable (snd kv)) entries = true ->
  renderable (dict_get entries key) = true.
Proof.
  induction entries as [|[k v] entries IH]; [reflexivity|].
  cbn [forallb dict_get snd]. intros Hall.
  apply andb_true_iff in Hall as [Hv Hrest].
  destruct (String.eqb k key); [exact Hv|now apply IH].
Qed.

Lemma renderable_resolve_keys (v : value) (keys : list string) :
  renderable v = true -> renderable (resolve_keys v keys) = true.
Proof.
  revert keys.
  induction v as [| | | | |items IH|entries IH] using value_nested_ind;
    intros [|key rest] Hv; try exact Hv; try reflexivity.
  - rewrite resolve_keys_list. cbn [renderable] in *.
    apply renderable_flatten.
    induction IH as [|item items Hitem _ IHitems]; [reflexivity|].
    cbn [forallb map] in *. apply andb_true_iff in Hv as [Hi His].
    apply andb_true_iff. split; [now apply Hitem|now apply IHitems].
  - cbn [renderable] in Hv.
    induction IH as [|[k v] entries Hitem _ IHentries]; [reflexivity|].
    cbn [forallb snd] in Hv. apply andb_true_iff in Hv as [Hv Hrest].
    rewrite resolve_keys_dict. cbn [dict_get].
    destruct (String.eqb k key).
    + now apply Hitem.
    + rewrite <- resolve_keys_dict. now apply IHentries.
Qed.

Lemma renderable_resolve_path (v : value) (path : string) :
  renderable v = true -> renderable (_resolve_path v path) = true.
Proof. apply renderable_resolve_keys. Qed.

Lemma py_str_checked_returns (v : value) :
  renderable v = true -> py_str_checked v = Ok (py_str v).
Proof. intros Hv. unfold py_str_checked. now rewrite Hv. Qed.

(** The limit: an integer of 4300 digits renders, one of 4301 does not. *)
Lemma renderable_at_the_limit :
  renderable (VInt (10 ^ 4300 - 1)) = true
  /\ renderable (VInt (10 ^ 4300)) = false
  /\ renderable (VList [VDict [("size", VInt (- 10 ^ 4300))]]) = false.
Proof. vm_compute. repeat split. Qed.


End criteria.

(** ** The criteria loops on concrete reports *)

Section criteria_examples.
Import VerifyReportSectionHasMatching.

Lemma credit_is_element_local_example :
  @evaluate literal_regex
    (Build "calls"
           (Some [VDict [("api", VStr "OpenFile")];
                  VDict [("status", VStr "denied")]])
           false)
    (VDict [("calls",
             VList [VDict [("api", VStr "OpenFile"); ("status", VStr "ok")];
                    VDict [("api", VStr "Sleep"); ("status", VStr "denied")]])])
    "" ""
  = Ok false.
Proof.
  refine (proj2 (@credit_is_element_local literal_regex
                   (Build "calls"
                          (Some [VDict [("api", VStr "OpenFile")];
                                 VDict [("status", VStr "denied")]])
                          false)
                   [VDict [("api", VStr "OpenFile")];
                    VDict [("status", VStr "denied")]]
                   (VDict [("calls",
                            VList [VDict [("api", VStr "OpenFile");
                                          ("status", VStr "ok")];
                                   VDict [("api", VStr "Sleep");
                                          ("status", VStr "denied")]])])
                   "" "" eq_refl)
            (VDict [("api", VStr "OpenFile"); ("status", VStr "ok")])
            (VDict [("api", VStr "Sleep"); ("status", VStr "denied")])
            (VDict [("api", VStr "OpenFile")])
            (VDict [("status", VStr "denied")])
            eq_refl eq_refl _ _ _ _).
  - eexists. split; reflexivity.
  - intros (kv & Hkv & Hv). inversion Hkv; subst. discriminate.
  - eexists. split; reflexivity.
  - intros (kv & Hkv & Hv). inversion Hkv; subst. discriminate.
Defined.



(** The examples of the specification. *)
Lemma example_flag_1 :
  @evaluate literal_regex
    (Build "behavior/processes/calls"
           (Some [VDict [("api", VStr "OutputDebugStringA")];
                  VDict [("arguments/value", VStr "FLAG_1")]])
           false)
    example_report "" ""
  = Ok true.
Proof. reflexivity. Qed.

Lemma example_flag_2 :
  @evaluate literal_regex
    (Build "behavior/processes/calls"
           (Some [VDict [("api", VStr "OutputDebugStringA")];
                  VDict [("arguments/value", VStr "FLAG_2")]])
           false)
    example_report "" ""
  = Ok false.
Proof. reflexivity. Qed.

End criteria_examples.

(** ** Content presence *)

Section content_presence.
Import VerifyReportSectionHasMatching.

Lemma has_content_truthy (s : VerifyReportSectionHasMatching.self)
      (report : value) :
  has_content s report = truthy (_resolve_path report (path s)).
Proof. unfold has_content. now destruct (truthy _). Qed.

Lemma truthy_has_content (v : value) :
  truthy v = true -> spec_has_content v = true.
Proof. destruct v; simpl; congruence. Qed.

Lemma truthy_list_or_none (v : value) :
  v = VNone \/ is_list v = true -> truthy v = spec_has_content v.
Proof. intros [->|Hl]; [reflexivity|]. destruct v; try discriminate. reflexivity. Qed.

(** C3, as the code has it. The content-presence verifier never raises and
    succeeds exactly when the value its path resolves to is true in
    Python's sense. It fails when the path resolves to nothing ([None] or
    an empty list) and succeeds on every non-empty list; a success means
    the path resolved to a non-empty list or a non-null value. The
    criteria of the inner verifier play no part. *)
Theorem C3_content_presence_is_truthiness
        (s : VerifyReportSectionHasContent.self) (report : value)
        (report_string test_storage_directory : string) :
  let resolved := _resolve_path report (VerifyReportSectionHasContent.path s) in
  VerifyReportSectionHasContent.evaluate s report report_string
    test_storage_directory = Ok (truthy resolved)
  /\ (truthy resolved = true -> spec_has_content resolved = true)
  /\ (resolved = VNone \/ is_list resolved = true ->
      truthy resolved = spec_has_content resolved).
Proof.
  intros resolved. split; [|split].
  - unfold VerifyReportSectionHasContent.evaluate. simpl.
    now rewrite has_content_truthy.
  - apply truthy_has_content.
  - apply truthy_list_or_none.
Qed.

Lemma C3_content_presence_is_truthiness_witness :
  VerifyReportSectionHasContent.evaluate
    (VerifyReportSectionHasContent.Build "behavior/processes/calls")
    example_report "" ""
  = Ok true
  /\ VerifyReportSectionHasContent.evaluate
       (VerifyReportSectionHasContent.Build "behavior/summary")
       example_report "" ""
     = Ok false.
Proof.
  split.
  - exact (proj1 (C3_content_presence_is_truthiness
                    (VerifyReportSectionHasContent.Build
                       "behavior/processes/calls")
                    example_report "" "")).
  - exact (proj1 (C3_content_presence_is_truthiness
                    (VerifyReportSectionHasContent.Build "behavior/summary")
                    example_report "" "")).
Defined.

(** C3, as the claim states it, fails: a path that resolves to the number
    0, a non-null scalar, makes the verifier fail. So do [False], the
    empty string and the empty mapping. *)
Lemma C3_counterexample :
  _resolve_path (VDict [("score", VInt 0)]) "score" = VInt 0
  /\ spec_has_content (VInt 0) = true
  /\ VerifyReportSectionHasContent.evaluate
       (VerifyReportSectionHasContent.Build "score")
       (VDict [("score", VInt 0)]) "" ""
     = Ok false.
Proof. repeat split. Qed.

End content_presence.

(** ** The objective tree *)

Section objective_tree.
Import CapeTestObjective.

(** The body of [run_objective_verification], with the loop over the
    children written as the loop over a test's roots. *)
Lemma run_with_eq rp rs sp (o : CapeTestObjective) :
  run_with rp rs sp o
  = (r <- verify_self (set_test_data o rp rs sp) ;;
     if lets_children_run (state (fst r)) then
       cs <- CapeDynamicTestBase.run_each rp rs sp (children o) ;;
       Ok (set_children (fst r) (fst cs), (snd r ++ snd cs)%list)
     else
       Ok (set_children (fst r) (map (set_skipped parent_unmet) (children o)),
           snd r)).
Proof.
  destruct o as [n cs st sr tn rv inf rq sm fm rp0 rs0 sp0].
  simpl. unfold bind.
  destruct (verify_self _) as [r|e]; [|reflexivity].
  destruct (lets_children_run _); [|reflexivity].
  match goal with
  | |- match ?f cs with _ => _ end = _ =>
      assert (forall l, f l = CapeDynamicTestBase.run_each rp rs sp l) as Heach
  end.
  { induction l as [|c l IH]; [reflexivity|].
    simpl. unfold bind. now rewrite IH. }
  now rewrite Heach.
Qed.

Lemma verify_self_raise (self : CapeTestObjective) (e : exn) :
  result_verifier self (report self) (report_string self) (storage_path self)
  = Raise e ->
  verify_self self
  = Ok (set_state self ERROR
          ("An exception was thrown during verification: " ++ exn_str e),
        [Invoke (name self); LogException (test_name self) (name self)]).
Proof. intros Hv. unfold verify_self. now rewrite Hv. Qed.

Lemma verify_self_return (self : CapeTestObjective) (b : bool) :
  result_verifier self (report self) (report_string self) (storage_path self)
  = Ok b ->
  verify_self self
  = Ok (set_state self
          (if _is_informational self then INFO
           else if b then SUCCESS else FAILURE)
          (if b then _success_msg self else _failure_msg self),
        [Invoke (name self)]).
Proof. intros Hv. unfold verify_self. now rewrite Hv. Qed.

(** The verifier is called once, and its fault stops here. *)
Lemma verify_self_ok (self : CapeTestObjective) :
  exists st reason tr,
    verify_self self = Ok (set_state self st reason, tr)
    /\ invocations tr = [name self]
    /\ (st = SUCCESS \/ st = FAILURE \/ st = ERROR \/ st = INFO).
Proof.
  destruct (result_verifier self (report self) (report_string self)
              (storage_path self)) as [b|e] eqn:Hv.
  - rewrite (verify_self_return _ _ Hv). do 3 eexists.
    split; [reflexivity|]. split; [reflexivity|].
    destruct (_is_informational self), b; auto.
  - rewrite (verify_self_raise _ _ Hv). do 3 eexists.
    split; [reflexivity|]. split; [reflexivity|]. auto.
Qed.

Lemma run_each_total rp rs sp (objectives : list CapeTestObjective) :
  Forall (fun o => exists o' tr, run_with rp rs sp o = Ok (o', tr))
         objectives ->
  exists os' tr, CapeDynamicTestBase.run_each rp rs sp objectives = Ok (os', tr).
Proof.
  induction 1 as [|o os (o' & tr & Ho) _ (os' & tr' & Hos)]; simpl.
  - eauto.
  - rewrite Ho, Hos. simpl. eauto.
Qed.

(** A pass over an objective returns: nothing is raised past it. *)
Lemma run_with_total rp rs sp (o : CapeTestObjective) :
  exists o' tr, run_with rp rs sp o = Ok (o', tr).
Proof.
  induction o as [o IH] using objective_nested_ind.
  rewrite run_with_eq.
  destruct (verify_self_ok (set_test_data o rp rs sp))
    as (st & reason & tr & -> & _ & _).
  simpl. destruct (lets_children_run st); [|eauto].
  destruct (run_each_total rp rs sp _ IH) as (os' & tr' & ->).
  simpl. eauto.
Qed.

(** The objectives of a list are run one by one, each on its own. *)
Lemma run_each_independent rp rs sp objectives os' tr :
  CapeDynamicTestBase.run_each rp rs sp objectives = Ok (os', tr) ->
  Forall2 (fun o o' => exists t, run_with rp rs sp o = Ok (o', t))
          objectives os'.
Proof.
  revert os' tr. induction objectives as [|o os IH]; intros os' tr; simpl.
  - intros [= <- <-]. constructor.
  - destruct (run_with rp rs sp o) as [[o1 t1]|e] eqn:Ho; simpl;
      [|discriminate].
    destruct (CapeDynamicTestBase.run_each rp rs sp os) as [[os1 t2]|e] eqn:Hos; simpl;
      [|discriminate].
    intros [= <- <-]. constructor; [eauto|]. eapply IH; eauto.
Qed.

Lemma set_test_data_idem (o : CapeTestObjective) rp rs sp :
  set_test_data (set_test_data o rp rs sp) rp rs sp = set_test_data o rp rs sp.
Proof. reflexivity. Qed.

(** [run_with] is the source's pair of calls. *)
Lemma run_with_method rp rs sp (o : CapeTestObjective) :
  run_with rp rs sp o
  = run_objective_verification (set_test_data o rp rs sp).
Proof.
  change (run_with rp rs sp o = run_with rp rs sp (set_test_data o rp rs sp)).
  now rewrite (run_with_eq rp rs sp (set_test_data o rp rs sp)), run_with_eq.
Qed.

Lemma run_objective_verification_eq (self : CapeTestObjective) :
  run_objective_verification self
  = (r <- verify_self self ;;
     if lets_children_run (state (fst r)) then
       cs <- CapeDynamicTestBase.run_each (report self) (report_string self) (storage_path self)
               (children self) ;;
       Ok (set_children (fst r) (fst cs), (snd r ++ snd cs)%list)
     else
       Ok (set_children (fst r)
             (map (set_skipped parent_unmet) (children self)),
           snd r)).
Proof.
  unfold run_objective_verification. rewrite run_with_eq.
  now destruct self.
Qed.

(** [set_skipped] reaches every objective below, and keeps the tree. *)
Lemma set_skipped_state reason (o : CapeTestObjective) :
  state (set_skipped reason o) = SKIPPED
  /\ state_reason (set_skipped reason o) = reason
  /\ name (set_skipped reason o) = name o.
Proof. now destruct o. Qed.

Lemma set_skipped_descendants reason (o : CapeTestObjective) :
  Forall (fun d => state d = SKIPPED /\ state_reason d = reason)
         (descendants (set_skipped reason o))
  /\ map name (descendants (set_skipped reason o)) = map name (descendants o).
Proof.
  induction o as [o IH] using objective_nested_ind.
  destruct o as [n cs st sr tn rv inf rq sm fm rp0 rs0 sp0].
  simpl in *. induction IH as [|c cs [Hc Hn] _ [IHs IHn]]; simpl.
  - split; [constructor|reflexivity].
  - split.
    + constructor; [split; apply set_skipped_state|].
      apply Forall_app. split; assumption.
    + rewrite !map_app. f_equal; [apply set_skipped_state|].
      now f_equal.
Qed.

Lemma skipped_children_descendants reason (cs : list CapeTestObjective) :
  Forall (fun d => state d = SKIPPED /\ state_reason d = reason)
         (flat_map (fun c => c :: descendants c) (map (set_skipped reason) cs))
  /\ map name
       (flat_map (fun c => c :: descendants c) (map (set_skipped reason) cs))
     = map name (flat_map (fun c => c :: descendants c) cs).
Proof.
  induction cs as [|c cs [IHs IHn]]; simpl.
  - split; [constructor|reflexivity].
  - destruct (set_skipped_descendants reason c) as [Hs Hn]. split.
    + constructor; [split; apply set_skipped_state|].
      apply Forall_app. split; assumption.
    + rewrite !map_app. f_equal; [apply set_skipped_state|]. now f_equal.
Qed.

Lemma descendants_children (o : CapeTestObjective) :
  descendants o = flat_map (fun c => c :: descendants c) (children o).
Proof. now destruct o. Qed.

(** C7. After [run_objective_verification] on a node, the node is in one
    of the states Success, Failure, Error, Info. If it is Failure or Error,
    every objective below the node, at any depth, is Skipped with the
    reason naming the unmet parent, the tree below keeps its shape, and the
    only verifier invoked in the pass is the node's own. If it is Success
    or Info, every child has been given the node's report, raw text and
    storage path and has gone through [run_objective_verification] in
    turn. *)
Theorem C7_cascading_skip (self : CapeTestObjective) :
  exists self' tr,
    run_objective_verification self = Ok (self', tr)
    /\ (state self' = SUCCESS \/ state self' = FAILURE
        \/ state self' = ERROR \/ state self' = INFO)
    /\ (state self' = FAILURE \/ state self' = ERROR ->
        Forall (fun d => state d = SKIPPED /\ state_reason d = parent_unmet)
               (descendants self')
        /\ map name (descendants self') = map name (descendants self)
        /\ invocations tr = [name self])
    /\ (state self' = SUCCESS \/ state self' = INFO ->
        Forall2
          (fun child child' =>
             exists t,
               run_objective_verification
                 (set_test_data child (report self) (report_string self)
                    (storage_path self))
               = Ok (child', t))
          (children self) (children self')).
Proof.
  rewrite run_objective_verification_eq.
  destruct (verify_self_ok self) as (st & reason & tr & -> & Hinv & Hst).
  simpl. destruct (lets_children_run st) eqn:Hrun.
  - assert (Forall (fun o => exists o' t,
                      run_with (report self) (report_string self)
                        (storage_path self) o = Ok (o', t))
                   (children self)) as Hall
      by (apply Forall_forall; intros o _; apply run_with_total).
    destruct (run_each_total _ _ _ _ Hall) as (os' & tr' & Heach).
    rewrite Heach. simpl. do 2 eexists. split; [reflexivity|].
    simpl. split; [assumption|]. split.
    + intros [->| ->]; discriminate.
    + intros _. apply run_each_independent in Heach.
      eapply Forall2_impl; [|exact Heach].
      intros c c' [t Ht]. exists t. now rewrite <- run_with_method.
  - do 2 eexists. split; [reflexivity|].
    simpl. split; [assumption|]. split.
    + intros _.
      destruct (skipped_children_descendants parent_unmet (children self))
        as [Hs Hn].
      split; [exact Hs|]. split; [|exact Hinv].
      now rewrite Hn, descendants_children.
    + intros [->| ->]; discriminate.
Qed.

Lemma C7_cascading_skip_witness :
  exists self' tr,
    run_objective_verification (example_chain returns_false) = Ok (self', tr)
    /\ state self' = FAILURE
    /\ map name (descendants self') = ["child"; "grandchild"]
    /\ Forall (fun d => state d = SKIPPED) (descendants self')
    /\ invocations tr = ["root"].
Proof.
  destruct (C7_cascading_skip (example_chain returns_false))
    as (self' & tr & Hrun & _ & Hskip & _).
  exists self', tr.
  assert (state self' = FAILURE) as Hst
    by (vm_compute in Hrun; injection Hrun as <- _; reflexivity).
  destruct (Hskip (or_introl Hst)) as (Hall & Hnames & Hinv).
  repeat split; try assumption.
  eapply Forall_impl; [|exact Hall]. now intros d [Hd _].
Defined.

(** C8. An objective whose verifier raises ends in state Error with a
    reason that carries the fault's text, and its pass returns instead of
    raising. A pass over a test returns as well, and gives each root the
    outcome of its own [run_objective_verification] on the test's report,
    raw text and storage directory, whatever the other roots did. *)
Theorem C8_verifier_fault_is_isolated
        (t : CapeDynamicTestBase.self) (self : CapeTestObjective) (e : exn) :
  (result_verifier self (report self) (report_string self) (storage_path self)
   = Raise e ->
   exists self' tr,
     run_objective_verification self = Ok (self', tr)
     /\ state self' = ERROR
     /\ state_reason self'
        = "An exception was thrown during verification: " ++ exn_str e)
  /\ exists t' tr,
       CapeDynamicTestBase._run_objective_verification t = Ok (t', tr)
       /\ Forall2
            (fun o o' =>
               exists tr_o,
                 run_objective_verification
                   (set_test_data o (CapeDynamicTestBase.report t)
                      (CapeDynamicTestBase.report_string t)
                      (CapeDynamicTestBase.test_storage_directory t))
                 = Ok (o', tr_o))
            (CapeDynamicTestBase._objectives t)
            (CapeDynamicTestBase._objectives t').
Proof.
  split.
  - intros Hv. rewrite run_objective_verification_eq.
    rewrite (verify_self_raise _ _ Hv). simpl.
    do 2 eexists. split; [reflexivity|]. split; reflexivity.
  - unfold CapeDynamicTestBase._run_objective_verification.
    assert (Forall (fun o => exists o' tr,
                      run_with (CapeDynamicTestBase.report t)
                        (CapeDynamicTestBase.report_string t)
                        (CapeDynamicTestBase.test_storage_directory t) o
                      = Ok (o', tr))
                   (CapeDynamicTestBase._objectives t)) as Hall
      by (apply Forall_forall; intros o _; apply run_with_total).
    destruct (run_each_total _ _ _ _ Hall) as (os' & tr' & Heach).
    rewrite Heach. simpl. do 2 eexists. split; [reflexivity|].
    simpl. apply run_each_independent in Heach.
    eapply Forall2_impl; [|exact Heach].
    intros o o' [tr_o Ho]. exists tr_o. now rewrite <- run_with_method.
Qed.

Lemma C8_verifier_fault_is_isolated_witness :
  (exists self' tr,
      run_objective_verification (leaf "faulty" raises_fault) = Ok (self', tr)
      /\ state self' = ERROR
      /\ state_reason self'
         = "An exception was thrown during verification: unreadable report section")
  /\ exists t' tr,
       CapeDynamicTestBase._run_objective_verification example_test
       = Ok (t', tr)
       /\ map state (CapeDynamicTestBase._objectives t') = [ERROR; SUCCESS].
Proof.
  destruct (C8_verifier_fault_is_isolated example_test
              (leaf "faulty" raises_fault)
              (Exn ValueError "unreadable report section"))
    as [Hone (t' & tr & Hrun & _)].
  split; [exact (Hone eq_refl)|].
  exists t', tr. split; [exact Hrun|].
  vm_compute in Hrun. injection Hrun as <- _. reflexivity.
Defined.

End objective_tree.

(** ** The file check *)

Section file_check.
Import VerifyFileContainsPattern.

(** [relative_to] succeeds exactly on the paths below the base. *)
Lemma is_relative_to_prefix (p base : fspath) :
  is_relative_to p base = true <-> exists rest, p = (base ++ rest)%list.
Proof.
  revert p. induction base as [|b base IH]; intros p; simpl.
  - split; [intros _; now exists p|reflexivity].
  - destruct p as [|c p].
    + split; [discriminate|]. now intros [rest Hrest].
    + rewrite andb_true_iff, IH. split.
      * intros [Hbc [rest ->]]. apply String.eqb_eq in Hbc as ->.
        now exists rest.
      * intros [rest [= -> ->]]. split; [apply String.eqb_refl|].
        now exists rest.
Qed.



End file_check.

(** * Further properties of the code *)

(** ** Resolution: composition and edges *)

Section resolution_more.
Import VerifyReportSectionHasMatching.

Lemma split_slash_concat (p1 p2 : string) :
  split_slash (p1 ++ String slash p2)
  = (split_slash p1 ++ split_slash p2)%list.
Proof.
  induction p1 as [|c p1 IH]; [reflexivity|].
  pose proof (split_slash_nonempty p1) as Hne.
  simpl. destruct (Ascii.eqb c slash).
  - now rewrite IH.
  - rewrite IH. destruct (split_slash p1); [contradiction|reflexivity].
Qed.

Lemma dict_get_in entries key :
  dict_get entries key = VNone
  \/ exists k, In (k, dict_get entries key) entries.
Proof.
  induction entries as [|[k v] entries IH]; simpl; [now left|].
  destruct (String.eqb k key).
  - right. exists k. now left.
  - destruct IH as [IH|[k' IH]]; [now left|].
    right. exists k'. now right.
Qed.

Lemma collect_resolve_keys (r : value) (rest : list string) :
  rest <> [] ->
  collect (resolve_keys r rest)
  = flatten_results (map (fun x => resolve_keys x rest) (collect r)).
Proof.
  intros Hne. destruct rest as [|key rest]; [congruence|].
  destruct r; simpl; try reflexivity; now rewrite app_nil_r.
Qed.

Lemma flatten_results_map_app (f : value -> value) (l1 l2 : list value) :
  flatten_results (map f (l1 ++ l2))
  = (flatten_results (map f l1) ++ flatten_results (map f l2))%list.
Proof. now rewrite map_app, flatten_results_app. Qed.

Lemma resolve_keys_app (v : value) (pre rest : list string) :
  rest <> [] ->
  resolve_keys v (pre ++ rest) = resolve_keys (resolve_keys v pre) rest.
Proof.
  intros Hne. revert pre.
  induction v as [| | | | |items IH|entries IH] using value_nested_ind;
    intros [|key pre]; try now rewrite resolve_keys_nil.
  all: try (destruct rest; [congruence|reflexivity]).
  - rewrite <- app_comm_cons, !resolve_keys_list.
    assert (forall l,
               collect (resolve_keys (VList l) rest)
               = flatten_results (map (fun x => resolve_keys x rest) l))
      as Hlist by (intros l; destruct rest; [congruence|reflexivity]).
    assert (resolve_keys
              (VList (flatten_results
                        (map (fun item => resolve_keys item (key :: pre))
                             items))) rest
            = VList (flatten_results
                       (map (fun x => resolve_keys x rest)
                            (flatten_results
                               (map (fun item => resolve_keys item (key :: pre))
                                    items))))) as ->
      by (destruct rest; [congruence|reflexivity]).
    f_equal. induction IH as [|item items Hitem _ IHitems]; [reflexivity|].
    simpl. unfold flatten_results in *. simpl.
    rewrite map_app, flat_map_app, <- IHitems. f_equal.
    rewrite app_comm_cons, Hitem. now apply collect_resolve_keys.
  - rewrite <- app_comm_cons, !resolve_keys_dict.
    destruct (dict_get_in entries key) as [->|[k Hin]].
    + now rewrite !resolve_keys_none.
    + rewrite Forall_forall in IH. apply (IH _ Hin).
Qed.

(** X1. Resolution composes: resolving [p1/p2] against a document is
    resolving [p2] against what [p1] resolves to, for every document and
    every two paths, lists on the way included. *)
Theorem resolve_path_composes (doc : value) (p1 p2 : string) :
  _resolve_path doc (p1 ++ "/" ++ p2)
  = _resolve_path (_resolve_path doc p1) p2.
Proof.
  unfold _resolve_path.
  change (p1 ++ "/" ++ p2) with (p1 ++ String slash p2).
  rewrite split_slash_concat.
  apply resolve_keys_app, split_slash_nonempty.
Qed.

(** X2. What resolution gives at the edges, for every path, the empty one
    included: against an empty list the empty list; against a list a list;
    against a mapping without the first segment [None]; against anything
    that is neither a list nor a mapping [None], whatever the path. *)
Theorem resolve_path_edges (path : string) :
  _resolve_path (VList []) path = VList []
  /\ (forall items, is_list (_resolve_path (VList items) path) = true)
  /\ (forall entries,
        dict_get entries (hd "" (split_slash path)) = VNone ->
        _resolve_path (VDict entries) path = VNone)
  /\ (forall v,
        (forall items, v <> VList items) ->
        (forall entries, v <> VDict entries) ->
        _resolve_path v path = VNone).
Proof.
  pose proof (split_slash_nonempty path) as Hne.
  repeat split.
  - now rewrite resolve_path_list.
  - intros items. now rewrite resolve_path_list.
  - intros entries Hget. unfold _resolve_path.
    destruct (split_slash path) as [|key rest]; [contradiction|].
    simpl in Hget. rewrite resolve_keys_dict, Hget.
    apply resolve_keys_none.
  - intros v Hl Hd. unfold _resolve_path.
    destruct (split_slash path) as [|key rest]; [contradiction|].
    now apply resolve_keys_scalar.
Qed.

Lemma resolve_path_edges_witness :
  _resolve_path (VDict [("pid", VInt 4)]) "calls/api" = VNone
  /\ _resolve_path (VStr "text") "" = VNone.
Proof.
  destruct (resolve_path_edges "calls/api") as (_ & _ & Hmissing & _).
  destruct (resolve_path_edges "") as (_ & _ & _ & Hscalar).
  split.
  - apply Hmissing. reflexivity.
  - apply Hscalar; discriminate.
Defined.

(** X3. The string handed to the recursive call stands for the keys left:
    joining the split of a path gives the path back, and splitting the
    join of keys that hold no slash, at least one of them, gives the keys
    back. *)
Theorem split_join_round_trip (path : string) (keys : list string) :
  join_slash (split_slash path) = path
  /\ (keys <> [] -> Forall segment keys ->
      split_slash (join_slash keys) = keys)
  /\ Forall segment (split_slash path)
  /\ split_slash path <> [].
Proof.
  split; [apply join_split_slash|].
  split; [apply split_join_slash|].
  split; [apply split_slash_segments|apply split_slash_nonempty].
Qed.

Lemma split_join_round_trip_witness :
  split_slash (join_slash ["behavior"; ""; "calls"]) = ["behavior"; ""; "calls"].
Proof.
  apply (proj1 (proj2 (split_join_round_trip "" ["behavior"; ""; "calls"]))).
  - discriminate.
  - repeat constructor.
Defined.

End resolution_more.

(** ** Matching: when a verifier succeeds *)

Section matching_more.
Import VerifyReportSectionHasMatching.
Context `{Regex}.





(** X5. The content check and the list of target elements agree:
    [has_content] holds exactly when there is a target element. Without
    content a verifier that has criteria returns [False], malformed
    criteria included, while one built with [None] returns [True]. *)
Theorem content_and_targets
        (s : self) (report : value)
        (report_string test_storage_directory : string) :
  (has_content s report = true <-> targets_of s report <> [])
  /\ (has_content s report = false ->
      forall criteria,
        match_criteria s = Some criteria ->
        evaluate s report report_string test_storage_directory = Ok false)
  /\ (match_criteria s = None ->
      evaluate s report report_string test_storage_directory = Ok true).
Proof.
  assert (has_content s report = true <-> targets_of s report <> []) as Hiff.
  { unfold has_content, targets_of.
    destruct (_resolve_path report (path s)) as [| | | | |items|entries];
      simpl; try (split; [discriminate|congruence]).
    - destruct b; split; congruence.
    - destruct (negb (z =? 0)%Z); split; congruence.
    - destruct (float_nonzero f); split; congruence.
    - destruct (negb (s0 =? "")); split; congruence.
    - destruct items; split; congruence.
    - destruct entries; split; congruence. }
  split; [exact Hiff|]. split.
  - intros Hno criteria Hcrit. unfold evaluate. rewrite Hcrit.
    destruct (targets_of s report) as [|t ts] eqn:Ht; [reflexivity|].
    destruct Hiff as [_ Hiff]. rewrite Hiff in Hno; discriminate.
  - intros Hnone. unfold evaluate. now rewrite Hnone.
Qed.



End matching_more.

Section matching_examples.
Import VerifyReportSectionHasMatching.

Lemma content_and_targets_witness :
  @evaluate literal_regex
    (Build "behavior/summary" (Some [VStr "not a mapping"; VInt 3]) true)
    example_report "" ""
  = Ok false
  /\ @evaluate literal_regex (Build "behavior/summary" None true)
       example_report "" ""
     = Ok true.
Proof.
  destruct (@content_and_targets literal_regex
              (Build "behavior/summary" (Some [VStr "not a mapping"; VInt 3])
                     true)
              example_report "" "") as (_ & Hno & _).
  destruct (@content_and_targets literal_regex
              (Build "behavior/summary" None true)
              example_report "" "") as (_ & _ & Hnone).
  split.
  - exact (Hno eq_refl _ eq_refl).
  - exact (Hnone eq_refl).
Defined.



End matching_examples.

(** ** Construction, raw text and files *)

Section construction_more.
Import VerifyReportSectionHasMatching.

Lemma check_each_first_bad (good rest : list value) (bad : value) n :
  Forall (fun c => py_len c = Ok 1) good ->
  py_len bad = Ok n -> n <> 1 ->
  check_each (good ++ bad :: rest)
  = Raise (Exn ValueError
             ("Invalid criteria: " ++ py_str bad
              ++ ". Expected exactly one key-value pair.")).
Proof.
  intros Hgood Hbad Hn. induction Hgood as [|c cs Hc _ IH]; simpl.
  - rewrite Hbad. simpl. now destruct (Nat.eqb_spec n 1).
  - rewrite Hc. simpl. exact IH.
Qed.

(** X7. On a list of mappings construction succeeds exactly when every
    mapping has one entry, and then keeps the list as given. Otherwise it
    raises [ValueError] naming the first mapping that has none or several.
    Anything that is neither [None] nor a list raises [TypeError]. *)
Theorem init_on_mappings
        (path : string) (rx : bool) (dicts : list (list (string * value))) :
  (Forall (fun d => List.length d = 1) dicts ->
   init path (VList (map VDict dicts)) rx
   = Ok (Build path (Some (map VDict dicts)) rx))
  /\ (forall good bad rest,
        dicts = (good ++ bad :: rest)%list ->
        Forall (fun d => List.length d = 1) good ->
        List.length bad <> 1 ->
        init path (VList (map VDict dicts)) rx
        = Raise (Exn ValueError
                   ("Invalid criteria: " ++ py_str (VDict bad)
                    ++ ". Expected exactly one key-value pair.")))
  /\ (forall other,
        other <> VNone -> is_list other = false ->
        init path other rx
        = Raise (Exn TypeError
                   ("match_criteria must be a list, got " ++ type_name other)))
  /\ init path VNone rx = Ok (Build path None rx).
Proof.
  repeat split.
  - intros Hall. unfold init. simpl.
    assert (check_each (map VDict dicts) = Ok tt) as ->; [|reflexivity].
    apply check_each_ok. apply Forall_map.
    eapply Forall_impl; [|exact Hall]. intros d Hd. simpl. now rewrite Hd.
  - intros good bad rest -> Hgood Hbad. unfold init. simpl.
    rewrite map_app. simpl.
    rewrite (check_each_first_bad _ _ (VDict bad) (List.length bad));
      [reflexivity| |reflexivity|assumption].
    apply Forall_map. eapply Forall_impl; [|exact Hgood].
    intros d Hd. simpl. now rewrite Hd.
  - intros other Hnone Hlist. unfold init.
    now rewrite check_criteria_format_not_list.
Qed.

Lemma init_on_mappings_witness :
  init "calls" (VList [VDict [("api", VStr "Sleep")];
                       VDict [("api", VStr "Sleep"); ("status", VInt 0)];
                       VDict []]) false
  = Raise (Exn ValueError
             "Invalid criteria: {'api': 'Sleep', 'status': 0}. Expected exactly one key-value pair.")
  /\ init "calls" (VDict [("api", VStr "Sleep")]) false
     = Raise (Exn TypeError "match_criteria must be a list, got dict").
Proof.
  destruct (init_on_mappings "calls" false
              [[("api", VStr "Sleep")];
               [("api", VStr "Sleep"); ("status", VInt 0)]; []])
    as (_ & Hbad & Hother & _).
  split.
  - apply (Hbad [[("api", VStr "Sleep")]]
                [("api", VStr "Sleep"); ("status", VInt 0)] [[]] eq_refl).
    + repeat constructor.
    + discriminate.
  - apply Hother; [discriminate|reflexivity].
Defined.

Lemma prefix_iff (n h : string) :
  String.prefix n h = true <-> exists post, h = n ++ post.
Proof.
  revert h. induction n as [|c n IH]; intros h; simpl.
  - split; [intros _; now exists h|now destruct h].
  - destruct h as [|d h].
    + split; [discriminate|]. now intros [post Hpost].
    + simpl. destruct (ascii_dec c d) as [->|Hcd].
      * rewrite IH. split.
        -- intros [post ->]. now exists post.
        -- intros [post [= ->]]. now exists post.
      * split; [discriminate|]. intros [post [= Hd _]]. congruence.
Qed.

(** X8. The raw-text check returns [True] exactly when the raw text is
    some text, then the expected string, then some text; it never raises.
    The empty expected string is found in every text, and no text shorter
    than the expected string holds it. *)
Theorem exact_string_is_substring
        (s : VerifyReportHasExactString.self) (report : value)
        (report_string test_storage_directory : string) :
  let expected := VerifyReportHasExactString.pattern s in
  (exists b,
      VerifyReportHasExactString.evaluate s report report_string
        test_storage_directory = Ok b
      /\ (b = true <->
          exists before after,
            report_string = before ++ expected ++ after))
  /\ (expected = "" ->
      VerifyReportHasExactString.evaluate s report report_string
        test_storage_directory = Ok true)
  /\ (String.length report_string < String.length expected ->
      VerifyReportHasExactString.evaluate s report report_string
        test_storage_directory = Ok false).
Proof.
  intros expected.
  assert (forall n h,
             str_contains n h = true
             <-> exists before after, h = before ++ n ++ after) as Hiff.
  { intros n h. induction h as [|c h IH]; cbn [str_contains].
    - rewrite orb_false_r, prefix_iff. split.
      + intros [post Hpost]. now exists "", post.
      + intros (before & after & Heq).
        destruct before; [now exists after|discriminate].
    - rewrite orb_true_iff, prefix_iff, IH. split.
      + intros [[post Hpost]|(before & after & ->)].
        * now exists "", post.
        * now exists (String c before), after.
      + intros (before & after & Heq). destruct before as [|d before].
        * left. now exists after.
        * right. injection Heq as _ ->. now exists before, after. }
  assert (forall a b, String.length (a ++ b)
                      = String.length a + String.length b) as Hlen
    by (induction a; intros b; simpl; [reflexivity|now rewrite IHa]).
  unfold VerifyReportHasExactString.evaluate. fold expected.
  split; [|split].
  - eexists. split; [reflexivity|]. apply Hiff.
  - intros ->. f_equal. apply Hiff. now exists "", report_string.
  - intros Hshort. f_equal.
    destruct (str_contains expected report_string) eqn:Hc; [|reflexivity].
    apply Hiff in Hc as (before & after & ->).
    rewrite !Hlen in Hshort. lia.
Qed.

Lemma exact_string_is_substring_witness :
  VerifyReportHasExactString.evaluate
    (VerifyReportHasExactString.Build "") VNone "FLAG_1" "/tmp"
  = Ok true
  /\ VerifyReportHasExactString.evaluate
       (VerifyReportHasExactString.Build "FLAG_10") VNone "FLAG_1" "/tmp"
     = Ok false.
Proof.
  destruct (exact_string_is_substring
              (VerifyReportHasExactString.Build "") VNone "FLAG_1" "/tmp")
    as (_ & Hempty & _).
  destruct (exact_string_is_substring
              (VerifyReportHasExactString.Build "FLAG_10") VNone "FLAG_1" "/tmp")
    as (_ & _ & Hshort).
  split; [exact (Hempty eq_refl)|apply Hshort; simpl; lia].
Defined.

End construction_more.

Section file_check_more.
Import VerifyFileContainsPattern.

(** X9. A file check reads at most once, and only a regular file that
    exists below the resolved storage root, in the mode the verifier was
    built with. When it reads, the outcome is the search in what was read:
    a failed read, or data of the other kind than the pattern, raises. *)
Theorem file_check_reads_inside_root
        `{Regex} `{FileSystem} (s : self) (report : value)
        (report_string test_storage_directory : string) :
  let base_dir := fs_resolve test_storage_directory in
  let file_path := fs_resolve (joinpath base_dir (relative_path s)) in
  let outcome := evaluate s report report_string test_storage_directory in
  (snd outcome = []
   \/ (snd outcome = [ReadFile file_path (binary_mode s)]
       /\ is_relative_to file_path base_dir = true
       /\ fs_exists file_path = true
       /\ fs_is_file file_path = true
       /\ fst outcome
          = (data <- fs_read file_path (binary_mode s) ;;
             search_data s (binary_mode s) data)))
  /\ (forall data,
        snd outcome <> [] ->
        fs_read file_path (binary_mode s) = Ok data ->
        pattern_is_bytes s = binary_mode s ->
        fst outcome = Ok (re_search (pattern s) data)).
Proof.
  intros base_dir file_path outcome. subst outcome. unfold evaluate.
  fold base_dir. fold file_path.
  destruct (is_relative_to file_path base_dir); simpl;
    [|split; [now left|intros data Hne; now destruct Hne]].
  destruct (fs_exists file_path); simpl;
    [|split; [now left|intros data Hne; now destruct Hne]].
  destruct (fs_is_file file_path); simpl;
    [|split; [now left|intros data Hne; now destruct Hne]].
  split.
  - right. repeat split.
  - intros data _ -> Hkind. simpl. unfold search_data.
    now rewrite Hkind, Bool.eqb_reflx.
Qed.

Lemma file_check_reads_inside_root_witness :
  @evaluate literal_regex
    (flat_files [(["tmp"; "case1"; "analysis.log"], "INFO: FLAG_1 seen"%string)])
    (@Build literal_regex "FLAG_1" false "logs/../analysis.log" false)
    example_report "{}" "/tmp/case1"
  = (Ok true, [ReadFile ["tmp"; "case1"; "analysis.log"] false]).
Proof.
  pose proof
    (@file_check_reads_inside_root literal_regex
       (flat_files [(["tmp"; "case1"; "analysis.log"],
                     "INFO: FLAG_1 seen"%string)])
       (@Build literal_regex "FLAG_1" false "logs/../analysis.log" false)
       example_report "{}" "/tmp/case1") as [_ Hread].
  specialize (Hread "INFO: FLAG_1 seen"%string ltac:(discriminate)
                    eq_refl eq_refl).
  rewrite (surjective_pairing (evaluate _ _ _ _)), Hread. reflexivity.
Defined.

End file_check_more.

(** ** A pass over an objective tree *)

Section pass.
Import CapeTestObjective.
Variable rp : value.
Variables rs sp : string.

Lemma run_each_Forall_run objectives os' tr :
  CapeDynamicTestBase.run_each rp rs sp objectives = Ok (os', tr) ->
  Forall_run (fun o o' t => run_with rp rs sp o = Ok (o', t))
             objectives os' tr.
Proof.
  revert os' tr. induction objectives as [|o os IH]; intros os' tr; simpl.
  - intros [= <- <-]. constructor.
  - destruct (run_with rp rs sp o) as [[o1 t1]|e] eqn:Ho; simpl;
      [|discriminate].
    destruct (CapeDynamicTestBase.run_each rp rs sp os) as [[os1 t2]|e]
      eqn:Hos; simpl; [|discriminate].
    intros [= <- <-]. constructor; [assumption|]. now apply IH.
Qed.

Lemma Forall_run_run_each P objectives os' tr :
  Forall_run (fun o o' t => run_with rp rs sp o = Ok (o', t) /\ P o o' t)
             objectives os' tr ->
  CapeDynamicTestBase.run_each rp rs sp objectives = Ok (os', tr).
Proof.
  induction 1 as [|o o' t os os' ts [Ho _] _ IH]; simpl; [reflexivity|].
  now rewrite Ho, IH.
Qed.

(** Induction on a pass: a property of passes holds of all of them if it
    holds of a pass that skips the children, and of a pass that runs them
    whenever it holds of the passes over the children. *)
Lemma run_with_induction
      (P : CapeTestObjective -> CapeTestObjective -> list event -> Prop) :
  (forall o st reason tr0,
      verify_self (set_test_data o rp rs sp)
      = Ok (set_state (set_test_data o rp rs sp) st reason, tr0) ->
      invocations tr0 = [name o] ->
      (st = SUCCESS \/ st = FAILURE \/ st = ERROR \/ st = INFO) ->
      lets_children_run st = false ->
      P o (set_children (set_state (set_test_data o rp rs sp) st reason)
             (map (set_skipped parent_unmet) (children o)))
        tr0) ->
  (forall o st reason tr0 cs' trc,
      verify_self (set_test_data o rp rs sp)
      = Ok (set_state (set_test_data o rp rs sp) st reason, tr0) ->
      invocations tr0 = [name o] ->
      (st = SUCCESS \/ st = FAILURE \/ st = ERROR \/ st = INFO) ->
      lets_children_run st = true ->
      Forall_run (fun c c' t => run_with rp rs sp c = Ok (c', t) /\ P c c' t)
                 (children o) cs' trc ->
      P o (set_children (set_state (set_test_data o rp rs sp) st reason) cs')
        (tr0 ++ trc)%list) ->
  forall o o' tr, run_with rp rs sp o = Ok (o', tr) -> P o o' tr.
Proof.
  intros Hskip Hrun o.
  induction o as [o IH] using objective_nested_ind.
  intros o' tr. rewrite run_with_eq.
  destruct (verify_self_ok (set_test_data o rp rs sp))
    as (st & reason & tr0 & Hv & Hinv & Hst).
  rewrite Hv. simpl. destruct (lets_children_run st) eqn:Hlets.
  - destruct (CapeDynamicTestBase.run_each rp rs sp (children o))
      as [[cs' trc]|e] eqn:Heach; simpl; [|discriminate].
    intros [= <- <-]. apply Hrun; try assumption.
    apply run_each_Forall_run in Heach.
    clear Hv Hinv Hst Hlets.
    induction Heach as [|c c' t cs cs'' ts Hc _ IHcs]; [constructor|].
    inversion IH; subst. constructor; [split; auto|auto].
  - intros [= <- <-]. now apply Hskip.
Qed.

Lemma descendants_set_children (o : CapeTestObjective) cs :
  descendants (set_children o cs) = flat_map subtree cs.
Proof. reflexivity. Qed.

Lemma invocations_app (t1 t2 : list event) :
  invocations (t1 ++ t2) = (invocations t1 ++ invocations t2)%list.
Proof. apply flat_map_app. Qed.

Lemma pass_shape (o o' : CapeTestObjective) tr :
  run_with rp rs sp o = Ok (o', tr) ->
  map name (subtree o') = map name (subtree o)
  /\ Forall (fun d => state d <> UNTESTED) (subtree o').
Proof.
  revert o o' tr. apply run_with_induction.
  - intros o st reason tr0 _ _ Hst _. unfold subtree.
    rewrite descendants_set_children.
    destruct (skipped_children_descendants parent_unmet (children o))
      as [Hs Hn].
    split.
    + simpl. f_equal. unfold subtree. rewrite Hn.
      now rewrite descendants_children.
    + constructor.
      * simpl. destruct Hst as [->|[->|[->| ->]]]; discriminate.
      * eapply Forall_impl; [|exact Hs]. intros d [-> _]. discriminate.
  - intros o st reason tr0 cs' trc _ _ Hst _ Hall. unfold subtree at 1 3.
    rewrite descendants_set_children.
    assert (map name (flat_map subtree cs')
            = map name (flat_map subtree (children o))
            /\ Forall (fun d => state d <> UNTESTED) (flat_map subtree cs'))
      as [Hn Hs].
    { induction Hall as [|c c' t cs cs'' ts [_ [Hcn Hcs]] _ [IHn IHs]];
        [split; [reflexivity|constructor]|].
      cbn [flat_map]. split.
      - now rewrite !map_app, Hcn, IHn.
      - apply Forall_app. now split. }
    split.
    + simpl. f_equal. rewrite Hn. unfold subtree.
      now rewrite (descendants_children o).
    + constructor; [|exact Hs].
      simpl. destruct Hst as [->|[->|[->| ->]]]; discriminate.
Qed.

Lemma filter_all_skipped (l : list CapeTestObjective) :
  Forall (fun d => state d = SKIPPED) l ->
  filter (fun d => negb (is_skipped (state d))) l = [].
Proof.
  induction 1 as [|d l Hd _ IH]; [reflexivity|].
  simpl. now rewrite Hd.
Qed.

Lemma pass_invocations (o o' : CapeTestObjective) tr :
  run_with rp rs sp o = Ok (o', tr) ->
  invocations tr
  = map name (filter (fun d => negb (is_skipped (state d))) (subtree o')).
Proof.
  revert o o' tr. apply run_with_induction.
  - intros o st reason tr0 _ Hinv Hst _. unfold subtree.
    rewrite descendants_set_children.
    destruct (skipped_children_descendants parent_unmet (children o))
      as [Hs _].
    simpl. rewrite filter_all_skipped.
    + rewrite Hinv. now destruct Hst as [->|[->|[->| ->]]].
    + eapply Forall_impl; [|exact Hs]. now intros d [Hd _].
  - intros o st reason tr0 cs' trc _ Hinv Hst _ Hall. unfold subtree at 1.
    rewrite descendants_set_children, invocations_app, Hinv.
    assert (invocations trc
            = map name (filter (fun d => negb (is_skipped (state d)))
                               (flat_map subtree cs'))) as ->.
    { induction Hall as [|c c' t cs cs'' ts [_ Hc] _ IH]; [reflexivity|].
      cbn [flat_map].
      now rewrite invocations_app, filter_app, map_app, Hc, IH. }
    simpl. now destruct Hst as [->|[->|[->| ->]]].
Qed.

End pass.

Section pass_more.
Import CapeTestObjective.
Variable rp : value.
Variables rs sp : string.

Lemma set_skipped_again reason reason' (o : CapeTestObjective) :
  set_skipped reason (set_skipped reason' o) = set_skipped reason o.
Proof.
  induction o as [o IH] using objective_nested_ind.
  destruct o as [n cs st sr tn rv inf rq sm fm rp0 rs0 sp0].
  simpl in *. f_equal. rewrite map_map.
  apply map_ext_in. intros c Hc.
  rewrite Forall_forall in IH. now apply IH.
Qed.

Lemma set_skipped_cascaded reason (o : CapeTestObjective) :
  Forall cascaded (subtree (set_skipped reason o)).
Proof.
  induction o as [o IH] using objective_nested_ind.
  destruct o as [n cs st sr tn rv inf rq sm fm rp0 rs0 sp0].
  simpl in IH. unfold subtree. simpl. constructor.
  - unfold cascaded. simpl. apply Forall_map, Forall_forall.
    intros c _. now destruct (set_skipped_state reason c) as (-> & _).
  - induction IH as [|c cs Hc _ IHcs]; [constructor|].
    cbn [map flat_map]. apply Forall_app. split; [exact Hc|exact IHcs].
Qed.

Lemma pass_cascaded (o o' : CapeTestObjective) tr :
  run_with rp rs sp o = Ok (o', tr) ->
  Forall cascaded (subtree o') /\ is_skipped (state o') = false.
Proof.
  revert o o' tr. apply run_with_induction.
  - intros o st reason tr0 _ _ Hst Hlets. unfold subtree.
    rewrite descendants_set_children. split.
    + constructor.
      * unfold cascaded. simpl. rewrite Hlets.
        apply Forall_map, Forall_forall. intros c _.
        now destruct (set_skipped_state parent_unmet c) as (-> & _).
      * induction (children o) as [|c cs IH]; [constructor|].
        cbn [map flat_map]. apply Forall_app. split; [|exact IH].
        apply set_skipped_cascaded.
    + simpl. now destruct Hst as [->|[->|[->| ->]]].
  - intros o st reason tr0 cs' trc _ _ Hst Hlets Hall. unfold subtree.
    rewrite descendants_set_children. split.
    + constructor.
      * unfold cascaded. simpl. rewrite Hlets. simpl.
        induction Hall as [|c c' t cs cs'' ts [_ [_ Hc]] _ IH];
          constructor; assumption.
      * induction Hall as [|c c' t cs cs'' ts [_ [Hc _]] _ IH];
          [constructor|].
        cbn [flat_map]. apply Forall_app. now split.
    + simpl. now destruct Hst as [->|[->|[->| ->]]].
Qed.

Lemma verify_self_again (o : CapeTestObjective) st reason tr0 cs :
  verify_self (set_test_data o rp rs sp)
  = Ok (set_state (set_test_data o rp rs sp) st reason, tr0) ->
  verify_self
    (set_test_data
       (set_children (set_state (set_test_data o rp rs sp) st reason) cs)
       rp rs sp)
  = Ok (set_children (set_state (set_test_data o rp rs sp) st reason) cs, tr0).
Proof.
  destruct o as [n cs0 st0 sr0 tn rv inf rq sm fm rp0 rs0 sp0].
  unfold verify_self. simpl.
  destruct (rv rp rs sp) as [b|e]; simpl; intros [= <- <- <-]; reflexivity.
Qed.

Lemma run_with_after (o : CapeTestObjective) st reason tr0 cs :
  verify_self (set_test_data o rp rs sp)
  = Ok (set_state (set_test_data o rp rs sp) st reason, tr0) ->
  run_with rp rs sp
    (set_children (set_state (set_test_data o rp rs sp) st reason) cs)
  = if lets_children_run st then
      r <- CapeDynamicTestBase.run_each rp rs sp cs ;;
      Ok (set_children (set_state (set_test_data o rp rs sp) st reason)
            (fst r),
          (tr0 ++ snd r)%list)
    else
      Ok (set_children (set_state (set_test_data o rp rs sp) st reason)
            (map (set_skipped parent_unmet) cs),
          tr0).
Proof.
  intros Hv. rewrite run_with_eq, (verify_self_again _ _ _ _ _ Hv).
  now destruct o.
Qed.

Lemma pass_again (o o' : CapeTestObjective) tr :
  run_with rp rs sp o = Ok (o', tr) ->
  run_with rp rs sp o' = Ok (o', tr) /\ has_test_data rp rs sp o'.
Proof.
  revert o o' tr. apply run_with_induction.
  - intros o st reason tr0 Hv _ _ Hlets. split; [|now destruct o].
    rewrite (run_with_after _ _ _ _ _ Hv), Hlets. do 3 f_equal.
    rewrite map_map. apply map_ext. intros c. apply set_skipped_again.
  - intros o st reason tr0 cs' trc Hv _ _ Hlets Hall.
    split; [|now destruct o].
    rewrite (run_with_after _ _ _ _ _ Hv), Hlets.
    assert (CapeDynamicTestBase.run_each rp rs sp cs' = Ok (cs', trc)) as ->.
    { induction Hall as [|c c' t cs cs'' ts [_ [Hc _]] _ IH];
        [reflexivity|].
      simpl. now rewrite Hc, IH. }
    reflexivity.
Qed.

Lemma pass_test_data (o o' : CapeTestObjective) tr :
  run_with rp rs sp o = Ok (o', tr) ->
  Forall (fun d => is_skipped (state d) = false -> has_test_data rp rs sp d)
         (subtree o').
Proof.
  revert o o' tr. apply run_with_induction.
  - intros o st reason tr0 _ _ _ _. unfold subtree.
    rewrite descendants_set_children.
    destruct (skipped_children_descendants parent_unmet (children o))
      as [Hs _].
    constructor; [intros _; now destruct o|].
    eapply Forall_impl; [|exact Hs]. intros d [-> _]. discriminate.
  - intros o st reason tr0 cs' trc _ _ _ _ Hall. unfold subtree.
    rewrite descendants_set_children.
    constructor; [intros _; now destruct o|].
    induction Hall as [|c c' t cs cs'' ts [_ Hc] _ IH]; [constructor|].
    cbn [flat_map]. apply Forall_app. now split.
Qed.

End pass_more.

Section pass_theorems.
Import CapeTestObjective.

(** X10. A pass keeps the tree: after [run_objective_verification] the
    objectives below the node are the same, by name and in the same order;
    none of them, the node included, is left Untested; and every one that
    is not Skipped carries the node's report, raw text and storage path. *)
Theorem pass_keeps_the_tree (self : CapeTestObjective) :
  exists self' tr,
    run_objective_verification self = Ok (self', tr)
    /\ map name (subtree self') = map name (subtree self)
    /\ Forall (fun d => state d <> UNTESTED) (subtree self')
    /\ Forall (fun d =>
                 is_skipped (state d) = false ->
                 has_test_data (report self) (report_string self)
                   (storage_path self) d)
              (subtree self').
Proof.
  unfold run_objective_verification.
  destruct (run_with_total (report self) (report_string self)
              (storage_path self) self) as (self' & tr & Hrun).
  exists self', tr. split; [exact Hrun|].
  destruct (pass_shape _ _ _ _ _ _ Hrun) as [Hn Hs].
  split; [exact Hn|]. split; [exact Hs|].
  exact (pass_test_data _ _ _ _ _ _ Hrun).
Qed.

(** X11. The verifiers a pass invokes are those of the objectives it does
    not leave Skipped, each once, parents before children and siblings in
    their order. *)
Theorem pass_invokes_the_unskipped (self : CapeTestObjective) :
  exists self' tr,
    run_objective_verification self = Ok (self', tr)
    /\ invocations tr
       = map name
           (filter (fun d => negb (is_skipped (state d))) (subtree self')).
Proof.
  unfold run_objective_verification.
  destruct (run_with_total (report self) (report_string self)
              (storage_path self) self) as (self' & tr & Hrun).
  exists self', tr. split; [exact Hrun|].
  exact (pass_invocations _ _ _ _ _ _ Hrun).
Qed.

(** X12. After a pass the whole tree is cascaded: at every depth, the
    children of a node are Skipped exactly when the node is in a state
    other than Success and Info; the node the pass started from is not
    Skipped. *)
Theorem pass_cascades_everywhere (self : CapeTestObjective) :
  exists self' tr,
    run_objective_verification self = Ok (self', tr)
    /\ Forall cascaded (subtree self')
    /\ is_skipped (state self') = false.
Proof.
  unfold run_objective_verification.
  destruct (run_with_total (report self) (report_string self)
              (storage_path self) self) as (self' & tr & Hrun).
  exists self', tr. split; [exact Hrun|].
  exact (pass_cascaded _ _ _ _ _ _ Hrun).
Qed.

(** X13. A pass does not read the states an earlier pass left: running
    [run_objective_verification] on its own result gives that result
    again, with the same verifier invocations. *)
Theorem pass_is_repeatable (self : CapeTestObjective) :
  exists self' tr,
    run_objective_verification self = Ok (self', tr)
    /\ run_objective_verification self' = Ok (self', tr).
Proof.
  unfold run_objective_verification at 1.
  destruct (run_with_total (report self) (report_string self)
              (storage_path self) self) as (self' & tr & Hrun).
  exists self', tr. split; [exact Hrun|].
  destruct (pass_again _ _ _ _ _ _ Hrun) as [Hagain (Hrp & Hrs & Hsp)].
  unfold run_objective_verification. now rewrite Hrp, Hrs, Hsp.
Qed.

(** X14. An objective no verifier was attached to ends a pass in state
    Error, informational or not, with the reason of the missing verifier,
    and everything below it is Skipped. *)
Theorem unattached_verifier_is_an_error
        (objective_name requirement test : string) (is_informational : bool)
        (cs : list CapeTestObjective) (rp : value) (rs sp : string) :
  exists self' tr,
    run_objective_verification
      (set_test_data
         (set_children
            (init objective_name requirement test is_informational) cs)
         rp rs sp)
    = Ok (self', tr)
    /\ state self' = ERROR
    /\ state_reason self'
       = "An exception was thrown during verification: No verifier was attached to this objective"
    /\ Forall (fun d => state d = SKIPPED) (descendants self')
    /\ invocations tr = [objective_name].
Proof.
  rewrite run_objective_verification_eq.
  do 2 eexists. split; [reflexivity|]. simpl.
  repeat split.
  destruct (skipped_children_descendants parent_unmet cs) as [Hs _].
  eapply Forall_impl; [|exact Hs]. now intros d [Hd _].
Qed.

(** X15. When the verifier returns a boolean, the state is Info for an
    informational objective and else Success or Failure by the boolean;
    the reason is the success or the failure message by the boolean in
    both cases; and the children run exactly when the objective is
    informational or the boolean is true. *)
Theorem outcome_of_a_boolean (self : CapeTestObjective) (b : bool) :
  result_verifier self (report self) (report_string self) (storage_path self)
  = Ok b ->
  exists self' tr,
    run_objective_verification self = Ok (self', tr)
    /\ state self'
       = (if _is_informational self then INFO
          else if b then SUCCESS else FAILURE)
    /\ state_reason self'
       = (if b then _success_msg self else _failure_msg self)
    /\ lets_children_run (state self') = _is_informational self || b.
Proof.
  intros Hv. rewrite run_objective_verification_eq.
  rewrite (verify_self_return _ _ Hv). simpl.
  destruct (_is_informational self), b; simpl.
  all: try (destruct (run_each_total (report self) (report_string self)
                        (storage_path self) (children self))
              as (os' & tr' & ->);
            [apply Forall_forall; intros o _; apply run_with_total|]).
  all: simpl; do 2 eexists; split; [reflexivity|]; repeat split.
Qed.

Lemma outcome_of_a_boolean_witness :
  exists self' tr,
    run_objective_verification
      (Objective "probe" [leaf "detail" returns_true] UNTESTED "" "demo"
                 returns_false true "requirement" "seen" "not seen"
                 VNone "" "")
    = Ok (self', tr)
    /\ state self' = INFO
    /\ state_reason self' = "not seen"
    /\ lets_children_run (state self') = true.
Proof.
  exact (outcome_of_a_boolean
           (Objective "probe" [leaf "detail" returns_true] UNTESTED "" "demo"
                      returns_false true "requirement" "seen" "not seen"
                      VNone "" "")
           false eq_refl).
Defined.

End pass_theorems.

(** ** Building trees, reading results, metadata *)

Section building.
Import CapeTestObjective.

Lemma existsb_eqb_in (k : string) (l : list string) :
  existsb (String.eqb k) l = true <-> In k l.
Proof.
  rewrite existsb_exists. split.
  - intros (x & Hin & Heq). apply String.eqb_eq in Heq. now subst.
  - intros Hin. exists k. split; [assumption|apply String.eqb_refl].
Qed.

Lemma NoDup_snoc (k : string) (l : list string) :
  NoDup l -> ~ In k l -> NoDup (l ++ [k]).
Proof.
  intros Hl Hk. induction Hl as [|x l Hx _ IH]; simpl.
  - constructor; [intros []|constructor].
  - constructor.
    + rewrite in_app_iff. intros [Hin|[->|[]]]; [contradiction|].
      apply Hk. now left.
    + apply IH. intros Hin. apply Hk. now right.
Qed.

(** X16. [add_child_objective] refuses with [ValueError] a child whose
    name a sibling already bears, and changes nothing; otherwise it puts
    the child last, carrying the parent's report, raw text and storage
    path. Sibling names that were distinct stay distinct. *)
Theorem add_child_objective_keeps_names_distinct
        (self objective : CapeTestObjective) :
  (In (name objective) (map name (children self)) ->
   add_child_objective self objective
   = Raise (Exn ValueError
              ("Objective " ++ name self
               ++ " already has a child objective called "
               ++ name objective)))
  /\ (~ In (name objective) (map name (children self)) ->
      exists child,
        add_child_objective self objective
        = Ok (set_children self (children self ++ [child]))
        /\ child = set_test_data objective (report self)
                     (report_string self) (storage_path self)
        /\ name child = name objective
        /\ has_test_data (report self) (report_string self)
             (storage_path self) child)
  /\ (forall self',
        add_child_objective self objective = Ok self' ->
        NoDup (map name (children self)) ->
        NoDup (map name (children self'))).
Proof.
  unfold add_child_objective.
  destruct (existsb (String.eqb (name objective)) (map name (children self)))
    eqn:Hex.
  - apply existsb_eqb_in in Hex. repeat split.
    + intros Hnot. contradiction.
    + discriminate.
  - assert (~ In (name objective) (map name (children self))) as Hnot
      by (rewrite <- existsb_eqb_in; congruence).
    split; [intros Hin; contradiction|]. split.
    + intros _. eexists. split; [reflexivity|].
      split; [reflexivity|]. now destruct objective.
    + intros self' [= <-] Hnd. simpl. rewrite map_app. simpl.
      apply NoDup_snoc; [assumption|]. now destruct objective.
Qed.

Lemma add_child_objective_keeps_names_distinct_witness :
  add_child_objective (example_chain returns_true) (leaf "child" returns_false)
  = Raise (Exn ValueError
             "Objective root already has a child objective called child")
  /\ exists child,
       add_child_objective (example_chain returns_true)
         (leaf "sibling" returns_false)
       = Ok (set_children (example_chain returns_true)
               (children (example_chain returns_true) ++ [child]))
       /\ name child = "sibling".
Proof.
  split.
  - apply (proj1 (add_child_objective_keeps_names_distinct
                    (example_chain returns_true) (leaf "child" returns_false))).
    simpl. now left.
  - destruct (proj1 (proj2 (add_child_objective_keeps_names_distinct
                              (example_chain returns_true)
                              (leaf "sibling" returns_false))))
      as (child & Hadd & _ & Hname & _).
    + simpl. intros [Heq|[]]. discriminate.
    + exists child. split; assumption.
Defined.

(** X17. [add_objective] refuses with [ValueError] a root whose name
    another root bears; otherwise the root goes last and nothing else of
    the test changes. Root names that were distinct stay distinct. *)
Theorem add_objective_keeps_names_distinct
        (t : CapeDynamicTestBase.self) (objective : CapeTestObjective) :
  (In (name objective) (map name (CapeDynamicTestBase._objectives t)) ->
   CapeDynamicTestBase.add_objective t objective
   = Raise (Exn ValueError
              ("Test already has an Objective called " ++ name objective)))
  /\ (~ In (name objective) (map name (CapeDynamicTestBase._objectives t)) ->
      CapeDynamicTestBase.add_objective t objective
      = Ok (CapeDynamicTestBase.Build
              (CapeDynamicTestBase.test_name t)
              (CapeDynamicTestBase._objectives t ++ [objective])
              (CapeDynamicTestBase.report t)
              (CapeDynamicTestBase.report_string t)
              (CapeDynamicTestBase.test_storage_directory t)))
  /\ (forall t',
        CapeDynamicTestBase.add_objective t objective = Ok t' ->
        NoDup (map name (CapeDynamicTestBase._objectives t)) ->
        NoDup (map name (CapeDynamicTestBase._objectives t'))).
Proof.
  unfold CapeDynamicTestBase.add_objective.
  destruct (existsb (String.eqb (name objective))
                    (map name (CapeDynamicTestBase._objectives t))) eqn:Hex.
  - apply existsb_eqb_in in Hex. repeat split.
    + intros Hnot. contradiction.
    + discriminate.
  - assert (~ In (name objective)
              (map name (CapeDynamicTestBase._objectives t))) as Hnot
      by (rewrite <- existsb_eqb_in; congruence).
    split; [intros Hin; contradiction|]. split; [reflexivity|].
    intros t' [= <-] Hnd. simpl. rewrite map_app. simpl.
    now apply NoDup_snoc.
Qed.

Lemma add_objective_keeps_names_distinct_witness :
  CapeDynamicTestBase.add_objective example_test (leaf "sound" returns_false)
  = Raise (Exn ValueError "Test already has an Objective called sound").
Proof.
  apply (proj1 (add_objective_keeps_names_distinct example_test
                  (leaf "sound" returns_false))).
  simpl. right. now left.
Defined.

(** X18. [set_skipped] marks the objective and everything below it
    Skipped with the reason given, whatever their states were, and keeps
    their names and order; marking again with another reason is marking
    once with the last reason. *)
Theorem set_skipped_marks_the_subtree
        (reason reason' : string) (o : CapeTestObjective) :
  Forall (fun d => state d = SKIPPED /\ state_reason d = reason)
         (subtree (set_skipped reason o))
  /\ map name (subtree (set_skipped reason o)) = map name (subtree o)
  /\ set_skipped reason (set_skipped reason' o) = set_skipped reason o.
Proof.
  destruct (set_skipped_descendants reason o) as [Hs Hn].
  destruct (set_skipped_state reason o) as (Hst & Hr & Hname).
  unfold subtree. repeat split.
  - constructor; [now split|exact Hs].
  - simpl. now rewrite Hname, Hn.
  - apply set_skipped_again.
Qed.

End building.

Section results.
Import CapeTestObjective.
Import ObjectiveResults.

Lemma dict_get_set_same entries key v :
  dict_get (dict_set entries key v) key = v.
Proof.
  induction entries as [|[k x] entries IH]; simpl.
  - now rewrite String.eqb_refl.
  - destruct (String.eqb k key) eqn:Hk; simpl; now rewrite Hk.
Qed.

Lemma dict_get_set_other entries key key' v :
  key <> key' ->
  dict_get (dict_set entries key v) key' = dict_get entries key'.
Proof.
  intros Hne. induction entries as [|[k x] entries IH]; simpl.
  - destruct (String.eqb_spec key key'); [contradiction|reflexivity].
  - destruct (String.eqb_spec k key) as [->|Hk]; simpl.
    + destruct (String.eqb_spec key key'); [contradiction|reflexivity].
    + now rewrite IH.
Qed.

Lemma dict_set_fresh entries key v :
  ~ In key (map fst entries) ->
  dict_set entries key v = (entries ++ [(key, v)])%list.
Proof.
  induction entries as [|[k x] entries IH]; simpl; [reflexivity|].
  intros Hnot. destruct (String.eqb_spec k key) as [->|Hk].
  - destruct Hnot. now left.
  - rewrite IH; [reflexivity|]. intros Hin. apply Hnot. now right.
Qed.

(** Entering objectives of distinct names one after the other lists them
    in their order. *)
Lemma fold_dict_set_distinct (f : CapeTestObjective -> value)
      (cs : list CapeTestObjective) (acc : list (string * value)) :
  NoDup (map name cs) ->
  (forall c, In c cs -> ~ In (name c) (map fst acc)) ->
  fold_left (fun d child => dict_set d (name child) (f child)) cs acc
  = (acc ++ map (fun c => (name c, f c)) cs)%list.
Proof.
  revert acc. induction cs as [|c cs IH]; intros acc Hnd Hacc; simpl.
  - now rewrite app_nil_r.
  - inversion Hnd as [|? ? Hc Hcs]; subst.
    rewrite dict_set_fresh by (apply Hacc; now left).
    rewrite IH; [now rewrite <- app_assoc|assumption|].
    intros c' Hin. rewrite map_app, in_app_iff. simpl.
    intros [Hold|[Heq|[]]].
    + apply (Hacc c'); [now right|assumption].
    + apply Hc. rewrite Heq. now apply in_map.
Qed.

Lemma dict_get_distinct (f : CapeTestObjective -> value)
      (cs : list CapeTestObjective) (c : CapeTestObjective) :
  NoDup (map name cs) -> In c cs ->
  dict_get (map (fun c => (name c, f c)) cs) (name c) = f c.
Proof.
  induction cs as [|c' cs IH]; intros Hnd Hin; [contradiction|].
  inversion Hnd as [|? ? Hc Hcs]; subst. simpl.
  destruct Hin as [->|Hin]; [now rewrite String.eqb_refl|].
  destruct (String.eqb_spec (name c') (name c)) as [Heq|_].
  - destruct Hc. rewrite Heq. now apply in_map.
  - now apply IH.
Qed.

(** X19. The result of an objective whose children bear distinct names
    gives its state, by its lowercase name, and its reason, and has under
    ["children"] one entry per child, in the children's order, the entry
    of a child being that child's own result: no child is left out. *)
Theorem get_results_lists_every_child (self : CapeTestObjective) :
  NoDup (map name (children self)) ->
  item (get_results self) "state" = VStr (ObjectiveResult_str (state self))
  /\ item (get_results self) "state_reason" = VStr (state_reason self)
  /\ keys (item (get_results self) "children") = map name (children self)
  /\ (forall child,
        In child (children self) ->
        item (item (get_results self) "children") (name child)
        = get_results child).
Proof.
  intros Hnd. destruct self as [n cs st sr tn rv inf rq sm fm rp rs sp].
  simpl in Hnd. simpl.
  rewrite (fold_dict_set_distinct get_results cs [] Hnd)
    by (intros c _ []).
  simpl. repeat split.
  - rewrite map_map. simpl. reflexivity.
  - intros child Hin. now apply dict_get_distinct.
Qed.

Lemma get_results_lists_every_child_witness :
  keys (item (get_results (example_chain returns_true)) "children")
  = ["child"].
Proof.
  apply (get_results_lists_every_child (example_chain returns_true)).
  simpl. constructor; [intros []|constructor].
Defined.

(** X20. The results of a test whose roots bear distinct names have one
    entry per root, in the roots' order, the entry of a root being that
    root's own result. *)
Theorem get_test_results_lists_every_root
        (objectives : list CapeTestObjective) :
  NoDup (map name objectives) ->
  keys (get_test_results objectives) = map name objectives
  /\ (forall objective,
        In objective objectives ->
        item (get_test_results objectives) (name objective)
        = get_results objective).
Proof.
  intros Hnd. unfold get_test_results.
  rewrite (fold_dict_set_distinct get_results objectives [] Hnd)
    by (intros c _ []).
  simpl. split.
  - rewrite map_map. simpl. reflexivity.
  - intros objective Hin. now apply dict_get_distinct.
Qed.

Lemma get_test_results_lists_every_root_witness :
  keys (get_test_results (CapeDynamicTestBase._objectives example_test))
  = ["faulty"; "sound"].
Proof.
  apply (get_test_results_lists_every_root
           (CapeDynamicTestBase._objectives example_test)).
  simpl. repeat constructor; simpl; intuition discriminate.
Defined.

End results.

Section metadata.
Import TestMetadata.

Lemma perform_keeps_identity (t : self) (c : call) :
  dict_get (_metadata t) "Name" = VStr (name t) ->
  dict_get (_metadata t) "Package" = VStr (package t) ->
  name (perform t c) = name t
  /\ package (perform t c) = package t
  /\ dict_get (_metadata (perform t c)) "Name" = VStr (name t)
  /\ dict_get (_metadata (perform t c)) "Package" = VStr (package t).
Proof.
  intros Hn Hp. destruct c as [d|v|v|v|z|v|ts|c|m]; simpl.
  1-5: repeat split; try (unfold put; simpl; rewrite dict_get_set_other by discriminate; assumption).
  - destruct v; simpl; repeat split; try assumption;
      unfold put; simpl; rewrite dict_get_set_other by discriminate; assumption.
  - unfold set_os_targets. destruct ts; repeat split;
      try (unfold put; simpl; rewrite dict_get_set_other by discriminate; assumption).
  - unfold set_task_config.
    destruct (dict_get c "Request Options"); repeat split;
      try (unfold put; simpl; rewrite dict_get_set_other by discriminate; assumption).
  - repeat split.
    + rewrite dict_get_set_other by discriminate. apply dict_get_set_same.
    + apply dict_get_set_same.
Qed.

(** X21. A new test has the ten metadata entries below, the task
    configuration being the empty string. Whatever calls of the metadata
    methods follow, [init_metadata] with any dictionary among them, the
    entries ["Name"] and ["Package"] of the metadata stay the name and the
    package the test was created with. *)
Theorem metadata_keeps_name_and_package
        (test_name analysis_package : string) (calls : list call) :
  exists t0,
    init test_name analysis_package = Ok t0
    /\ get_metadata t0
       = VDict [("Name", VStr test_name);
                ("Package", VStr analysis_package);
                ("Timeout", VInt 120);
                ("Description", VStr "No description set for this test");
                ("Zip Password", VNone);
                ("Payload Notes", VNone);
                ("Result Notes", VNone);
                ("Enforce Timeout", VBool false);
                ("Targets", VList []);
                ("Task Config", VStr "")]
    /\ let t := fold_left perform calls t0 in
       dict_get (_metadata t) "Name" = VStr test_name
       /\ dict_get (_metadata t) "Package" = VStr analysis_package.
Proof.
  eexists. split; [reflexivity|]. split; [reflexivity|].
  match goal with
  | |- let t := fold_left perform calls ?t0 in _ =>
      assert (name t0 = test_name /\ package t0 = analysis_package
              /\ dict_get (_metadata t0) "Name" = VStr (name t0)
              /\ dict_get (_metadata t0) "Package" = VStr (package t0))
        as Hinv by (repeat split);
      generalize dependent t0
  end.
  induction calls as [|c calls IH]; intros t0 (Hn & Hp & Hgn & Hgp); simpl.
  - rewrite <- Hn, <- Hp. now split.
  - destruct (perform_keeps_identity t0 c Hgn Hgp) as (Hn' & Hp' & Hgn' & Hgp').
    apply IH. rewrite Hn', Hp'. repeat split; congruence.
Qed.



End metadata.
